(** * Happy Transformer: dataset preparation and training dispatch

    A shallow embedding of [happytransformer/happy_transformer.py] (class
    [HappyTransformer]) and of [happytransformer/happy_generation.py]
    (class [HappyGeneration]), with the properties of the preprocessing and
    dispatch workflow stated over it.

    Python values are modelled as follows: [str] as [string], [int] as [Z],
    [float] as [Q] (the code only compares such values with [0] and passes
    them on), [dict] as an association list, exceptions as a sum in a small
    state-and-error monad whose state records every call that leaves the
    class (library calls, log lines), in program order. *)

From Stdlib Require Import String Ascii List ZArith QArith Bool Lia DecimalString.
Import ListNotations.
Local Open Scope string_scope.
Local Open Scope Z_scope.

(** ** Python strings *)

Module PyStr.

(** [len(s)] *)
Definition len (s : string) : Z := Z.of_nat (String.length s).

(** [s[i:j]] for [0 <= i], [0 <= j] *)
Definition slice (s : string) (i j : Z) : string :=
  String.substring (Z.to_nat i) (Z.to_nat (j - i)) s.

(** [s[:j]] *)
Definition slice_to (s : string) (j : Z) : string := slice s 0 j.

(** [s[i:]] *)
Definition slice_from (s : string) (i : Z) : string := slice s i (len s).

(** [s.rfind(c)] for a one-character [c], scanning [s] from index [i]:
    the highest index holding [c], or [-1]. *)
Fixpoint rfind_from (c : ascii) (s : string) (i : Z) : Z :=
  match s with
  | EmptyString => -1
  | String a s' =>
      let r := rfind_from c s' (i + 1) in
      if 0 <=? r then r else if Ascii.eqb a c then i else -1
  end.

Definition rfind (s : string) (c : ascii) : Z := rfind_from c s 0.

(** [s.endswith(suffix)] *)
Definition endswith (s suffix : string) : bool :=
  let n := String.length s in
  let k := String.length suffix in
  (k <=? n)%nat && String.eqb (String.substring (n - k) k s) suffix.

(** [needle in hay] on two strings: substring containment *)
Fixpoint contains (needle hay : string) : bool :=
  String.prefix needle hay
  || match hay with
     | EmptyString => false
     | String _ hay' => contains needle hay'
     end.

(** [str(n)] for a natural number *)
Definition of_nat (n : nat) : string := NilEmpty.string_of_uint (Nat.to_uint n).

End PyStr.

(** ** [os.path.splitext] (POSIX flavour: [sep = "/"], no [altsep],
    [extsep = "."]), following [genericpath._splitext] statement by
    statement. *)

Module OsPath.

Definition sep : ascii := "/"%char.
Definition extsep : ascii := "."%char.

(** The [while filenameIndex < dotIndex] loop: [true] when it reaches the
    [return p[:dotIndex], p[dotIndex:]] inside, [false] when it runs out.
    [n] is the number of iterations left, [dotIndex - filenameIndex]. *)
Fixpoint skip_leading_dots (p : string) (filenameIndex : Z) (n : nat) : bool :=
  match n with
  | O => false
  | S n' =>
      if negb (String.eqb (PyStr.slice p filenameIndex (filenameIndex + 1))
                          (String extsep EmptyString))
      then true
      else skip_leading_dots p (filenameIndex + 1) n'
  end.

Definition splitext (p : string) : string * string :=
  let sepIndex := PyStr.rfind p sep in
  let dotIndex := PyStr.rfind p extsep in
  if (sepIndex <? dotIndex)
     && skip_leading_dots p (sepIndex + 1) (Z.to_nat (dotIndex - (sepIndex + 1)))
  then (PyStr.slice_to p dotIndex, PyStr.slice_from p dotIndex)
  else (p, PyStr.slice_to p 0).

End OsPath.

(** ** Exceptions, devices, datasets *)

Inductive Exn : Type :=
| ValueError (msg : string)
| KeyError (key : string)
| TypeError (msg : string)
| AttributeError (msg : string)
| NotImplementedError (msg : string)
| LibraryError (msg : string).  (* raised inside a library call *)

(** [torch.device]; [cuda idx] is ["cuda:idx"]. *)
Inductive Device : Type :=
| mps
| cuda (idx : nat)
| cpu.

(** [device.type] *)
Definition device_type (d : Device) : string :=
  match d with
  | mps => "mps"
  | cuda _ => "cuda"
  | cpu => "cpu"
  end.

(** What [torch.backends.mps] and [torch.cuda] report on this machine. *)
Record Torch : Type := {
  mps_is_available : bool;
  mps_is_built : bool;
  cuda_is_available : bool
}.

(** A raw dataset is the list of its rows, a tokenized one the list of
    its token-id rows; a [DatasetDict] maps split names to datasets. *)
Definition RawDataset : Type := list string.
Definition TokDataset : Type := list (list Z).
Definition DatasetDict (D : Type) : Type := list (string * D).

(** The value of [self._t_data_file_type]: [None] in the base class, a
    string in [HappyGeneration], a list of strings elsewhere. *)
Inductive FileTypes : Type :=
| FTNone
| FTStr (s : string)
| FTList (l : list string).

(** ** Argument schemas

    The dataclasses are declared in [happytransformer.args]; the records
    hold the fields the methods below read, under the names they are read
    by. *)

Record TrainArgs : Type := {
  learning_rate : Q;
  weight_decay : Q;
  adam_beta1 : Q;
  adam_beta2 : Q;
  adam_epsilon : Q;
  max_grad_norm : Q;
  num_train_epochs : Q;
  report_to : list string;
  save_steps : Q;
  eval_steps : Q;
  logging_steps : Q;
  batch_size : Z;
  fp16 : bool;
  gas : Z;
  eval_ratio : Q;
  output_dir : string;
  run_name : string;
  project_name : string;
  deepspeed : string;
  mlm_probability : Q;
  preprocessing_processes : Z;
  save_preprocessed_data : bool;
  save_preprocessed_data_path : string;
  load_preprocessed_data : bool;
  load_preprocessed_data_path : string
}.

Record EvalArgs : Type := {
  e_batch_size : Z;
  e_deepspeed : string;
  e_mlm_probability : Q;
  e_preprocessing_processes : Z;
  e_save_preprocessed_data : bool;
  e_save_preprocessed_data_path : string;
  e_load_preprocessed_data : bool;
  e_load_preprocessed_data_path : string
}.

(** The [args] parameter of [train] and [eval] as the caller may pass it:
    a [dict] (the legacy style) or an argument object. *)
Inductive PyArgs (A : Type) : Type :=
| ArgsDict
| ArgsObj (a : A).
Arguments ArgsDict {A}.
Arguments ArgsObj {A} a.

(** The keyword arguments [_get_training_args] hands to [arg_class];
    [seq2seq] tells [Seq2SeqTrainingArguments] from [TrainingArguments]. *)
Record TrainingArguments : Type := {
  ta_seq2seq : bool;
  ta_deepspeed : option string;
  ta_output_dir : string;
  ta_learning_rate : Q;
  ta_weight_decay : Q;
  ta_adam_beta1 : Q;
  ta_adam_beta2 : Q;
  ta_adam_epsilon : Q;
  ta_max_grad_norm : Q;
  ta_num_train_epochs : Q;
  ta_report_to : list string;
  ta_save_strategy : string;
  ta_save_steps : Q;
  ta_evaluation_strategy : string;
  ta_eval_steps : Q;
  ta_logging_strategy : string;
  ta_logging_steps : Q;
  ta_per_device_train_batch_size : Z;
  ta_fp16 : bool;
  ta_gradient_accumulation_steps : Z;
  ta_use_mps_device : bool;
  ta_run_name : string
}.

(** The keyword arguments of [_get_eval_args]. *)
Record EvalTrainingArguments : Type := {
  ea_output_dir : string;
  ea_seed : Z;
  ea_report_to : list string;
  ea_per_device_eval_batch_size : Z;
  ea_use_mps_device : bool;
  ea_deepspeed : option string
}.

Record EvalResult : Type := { loss : Q }.

(** ** The world outside the class *)

Record Tokenizer : Type := {
  pad_token : option string;
  eos_token : option string;
  tokenizer_len : nat
}.

(** Every call that leaves the class, as it appears in the trace;
    [CallTokFunction] marks the dispatch to the task's [_tok_function]. *)
Inductive Event : Type :=
| LogInfo (msg : string)
| LogWarning (msg : string)
| Print (msg : string)
| FromPretrained (model_name_path : string)
| ModelTo (d : Device)
| ResizeTokenEmbeddings (n : nat)
| LoadDataset (file_type : string) (data_files : DatasetDict string) (split : option string)
| Shuffle (seed : Z)
| TrainTestSplit (test_size : Q) (seed : option Z)
| CallTokFunction (format : string)
| PreprocessConcatenate (processes : Z) (mlm : bool)
| LoadFromDisk (path : string)
| SaveToDisk (path : string) (splits : list string)
| SetEnviron (key value : string)
| SetMlmProbability (p : Q)
| NewTrainingArguments (kwargs : TrainingArguments)
| NewEvalTrainingArguments (kwargs : EvalTrainingArguments)
| TrainerTrain (seq2seq : bool) (args : TrainingArguments)
               (train_dataset eval_dataset : TokDataset)
| TrainerEvaluate (args : EvalTrainingArguments) (eval_dataset : TokDataset).

(** The libraries the class calls ([transformers], [datasets], [torch],
    [happytransformer.fine_tuning_util]) are parameters of the model. A
    library call either fails with a message or returns its value; the
    file system is the one these functions read.

    [load_dataset_split] is [load_dataset] called with [split=...] (it
    returns one dataset), [load_dataset] the call without (it returns a
    [DatasetDict]). In the same way [load_from_disk] is the call whose
    result the code subscripts by split name and [load_from_disk_dataset]
    the call whose result it uses as one dataset; a path that holds the
    other kind of object counts as a failure of the call.
    [train_test_split] takes the [seed] keyword as an option and, last,
    the state of NumPy's global generator, which is what the library draws
    from when no seed is given. [training_arguments_init] and
    [eval_arguments_init] are the validation the library runs when a
    [TrainingArguments] object is built from keyword arguments. *)
Record Library : Type := {
  torch : Torch;
  from_pretrained : string -> string + Tokenizer;
  load_dataset_split :
    string -> DatasetDict string -> string -> string + RawDataset;
  load_dataset : string -> DatasetDict string -> string + DatasetDict RawDataset;
  shuffle : RawDataset -> Z -> RawDataset;
  train_test_split :
    RawDataset -> Q -> option Z -> N -> string + DatasetDict RawDataset;
  preprocess_concatenate : RawDataset -> Z -> bool -> string + TokDataset;
  load_from_disk : string -> string + DatasetDict TokDataset;
  load_from_disk_dataset : string -> string + TokDataset;
  save_to_disk : string -> DatasetDict TokDataset -> string + unit;
  training_arguments_init : TrainingArguments -> string + unit;
  eval_arguments_init : EvalTrainingArguments -> string + unit;
  trainer_train :
    bool -> TrainingArguments -> TokDataset -> TokDataset -> string + unit;
  tmp_dir_name : string;
  trainer_evaluate : EvalTrainingArguments -> TokDataset -> string + list (string * Q)
}.

Record World : Type := {
  trace : list Event;      (* oldest first *)
  np_random : N            (* state of NumPy's global generator *)
}.

(** ** State and exceptions *)

Definition M (A : Type) : Type := World -> World * (Exn + A).

Definition ret {A : Type} (a : A) : M A := fun w => (w, inr a).

Definition raise {A : Type} (e : Exn) : M A := fun w => (w, inl e).

Definition bind {A B : Type} (c : M A) (k : A -> M B) : M B :=
  fun w =>
    match c w with
    | (w', inl e) => (w', inl e)
    | (w', inr a) => k a w'
    end.

Declare Scope py_scope.
Delimit Scope py_scope with py.
Notation "x <- c ;; k" := (bind c (fun x => k))
  (at level 61, c at next level, right associativity) : py_scope.
Notation "' pat <- c ;; k" := (bind c (fun x => match x with pat => k end))
  (at level 61, pat pattern, c at next level, right associativity) : py_scope.
Notation "c ;; k" := (bind c (fun _ => k))
  (at level 61, right associativity) : py_scope.
Local Open Scope py_scope.

(** The world after some more events. *)
Definition after (w : World) (evs : list Event) : World :=
  {| trace := trace w ++ evs; np_random := np_random w |}.

Definition emit (e : Event) : M unit := fun w => (after w [e], inr tt).

(** A library call: it is recorded, then it fails or returns. *)
Definition lib_call {A : Type} (e : Event) (r : string + A) : M A :=
  emit e ;;
  match r with
  | inl msg => raise (LibraryError msg)
  | inr a => ret a
  end.

Definition get_np_random : M N := fun w => (w, inr (np_random w)).

(** [x < y] on Python numbers *)
Definition Qlt_bool (x y : Q) : bool := negb (Qle_bool y x).

(** An expression statement: the value is built and dropped. *)
Definition expr_stmt {A : Type} (a : A) : M unit := ret tt.

(** [d[key]] on a dict *)
Fixpoint lookup {V : Type} (d : list (string * V)) (key : string) : option V :=
  match d with
  | [] => None
  | (k, v) :: d' => if String.eqb k key then Some v else lookup d' key
  end.

Definition getitem {V : Type} (d : list (string * V)) (key : string) : M V :=
  match lookup d key with
  | Some v => ret v
  | None => raise (KeyError key)
  end.

(** ** Objects and methods *)

(** An argument at a call site of [_tok_function]. *)
Inductive PyVal : Type :=
| VRaw (d : RawDataset)
| VTrainArgs (a : TrainArgs)
| VEvalArgs (a : EvalArgs)
| VStr (s : string).

(** A method defined with [m_params] positional parameters after [self]
    and no defaults. *)
Record Method : Type := {
  m_name : string;
  m_params : nat;
  m_body : list PyVal -> M TokDataset
}.

(** Calling a bound method: Python checks the number of positional
    arguments before the body runs. *)
Definition call_method (m : Method) (args : list PyVal) : M TokDataset :=
  if Nat.eqb (List.length args) (m_params m) then m_body m args
  else raise (TypeError
    (m_name m ++ "() takes " ++ PyStr.of_nat (S (m_params m))
     ++ " positional arguments but " ++ PyStr.of_nat (S (List.length args))
     ++ " were given")).

(** The attributes of an instance that the methods below read; the class
    of the instance decides [_tok_function]. *)
Record Self : Type := {
  model_type : string;
  model_name : string;
  tokenizer : Tokenizer;
  device : Device;
  _data_collator : option string;
  _t_data_file_type : FileTypes;
  _type : option string;
  _tok_function : Method
}.

(** [str(device)] *)
Definition device_str (d : Device) : string :=
  match d with
  | mps => "mps"
  | cuda idx => "cuda:" ++ PyStr.of_nat idx
  | cpu => "cpu"
  end.

(** [self._type == s] *)
Definition type_is (self : Self) (s : string) : bool :=
  match _type self with
  | Some t => String.eqb t s
  | None => false
  end.

(** [x not in c] for the container held in [_t_data_file_type] *)
Definition not_in (x : string) (c : FileTypes) : M bool :=
  match c with
  | FTNone => raise (TypeError "argument of type 'NoneType' is not iterable")
  | FTStr s => ret (negb (PyStr.contains x s))
  | FTList l => ret (negb (existsb (String.eqb x) l))
  end.

(** [None if s == "" else s] *)
Definition none_if_empty (s : string) : option string :=
  if String.eqb s "" then None else Some s.

(** ** class HappyTransformer *)

Module HappyTransformer.
Section Methods.

Variable lib : Library.

(** [_tok_function] of the base class: three parameters, not
    implemented. *)
Definition _tok_function_base : Method :=
  {| m_name := "_tok_function";
     m_params := 3;
     m_body := fun _ => raise (NotImplementedError "") |}.

(** [_get_model_components]: config, model and tokenizer are loaded
    from the same name or path; one event stands for the three calls. *)
Definition _get_model_components (model_name_path : string) : M Tokenizer :=
  lib_call (FromPretrained model_name_path) (from_pretrained lib model_name_path).

Definition to_auto_device : M Device :=
  let device : option Device := None in
  let device :=
    if mps_is_available (torch lib) then
      if mps_is_built (torch lib) then Some mps else device
    else device in
  let device :=
    if cuda_is_available (torch lib) then Some (cuda 0) else device in
  let device :=
    match device with
    | None => cpu
    | Some d => d
    end in
  emit (ModelTo device) ;;
  ret device.

(** [__init__]; the logger set-up has no effect on what follows and is
    left out. *)
Definition __init__ (model_type model_name load_path : string) : M Self :=
  tokenizer <-
    (if negb (String.eqb load_path "")
     then _get_model_components load_path
     else _get_model_components model_name) ;;
  device <- to_auto_device ;;
  emit (LogInfo ("Using device: " ++ device_str device)) ;;
  let tokenizer :=
    match pad_token tokenizer, eos_token tokenizer with
    | None, Some eos =>
        {| pad_token := Some eos;
           eos_token := eos_token tokenizer;
           tokenizer_len := tokenizer_len tokenizer |}
    | _, _ => tokenizer
    end in
  emit (ResizeTokenEmbeddings (tokenizer_len tokenizer)) ;;
  ret {| model_type := model_type;
         model_name := model_name;
         tokenizer := tokenizer;
         device := device;
         _data_collator := None;
         _t_data_file_type := FTNone;
         _type := None;
         _tok_function := _tok_function_base |}.

Definition ending_map : list (string * string) :=
  [(".txt", "text"); (".csv", "csv")].

(** The source builds the ValueError under the guard and does not raise
    it. *)
Definition _check_file_type (self : Self) (file_path : string) : M string :=
  let split_path := OsPath.splitext file_path in
  let file_extension := snd split_path in
  ending <- getitem ending_map file_extension ;;
  unsupported <- not_in ending (_t_data_file_type self) ;;
  (if (unsupported : bool)
   then expr_stmt (ValueError ("Invalid file type for " ++ file_path ++ "."))
   else ret tt) ;;
  ret ending.

(** The three-argument call [self._tok_function(dataset, args, format)]
    made by the preprocessing methods. *)
Definition tok_call (self : Self) (dataset : RawDataset) (args : PyVal)
    (format : string) : M TokDataset :=
  emit (CallTokFunction format) ;;
  call_method (_tok_function self) [VRaw dataset; args; VStr format].

Definition legacy_load_msg : string :=
  "As of version 2.5.0 preprocessed files are not longer saved as json files. Please preprocess your data again".

Definition legacy_save_msg : string :=
  "As of version 2.5.0 preprocessed files are not longer saved as json files. Please provide a path to a folder.".

(** The f-string of the warning in the load branch. *)
Definition cache_warning (args : TrainArgs) (eval_filepath : string) : string :=
  "Eval data will be fetched from " ++ load_preprocessed_data_path args
  ++ " and not " ++ eval_filepath.

Definition mismatch_msg : string :=
  "Train file-type must be the same as the eval file-type".

Definition _preprocess_data_train (self : Self)
    (input_filepath eval_filepath : string) (args : TrainArgs)
    : M (TokDataset * TokDataset) :=
  ' (train_tok_data, eval_tok_data) <-
    (if negb (load_preprocessed_data args) then
       if String.eqb eval_filepath "" then
         file_type <- _check_file_type self input_filepath ;;
         all_raw_data <-
           lib_call (LoadDataset file_type [("train", input_filepath)] (Some "train"))
             (load_dataset_split lib file_type [("train", input_filepath)] "train") ;;
         all_raw_data <-
           lib_call (Shuffle 42) (inr (shuffle lib all_raw_data 42)) ;;
         entropy <- get_np_random ;;
         split_text_data <-
           lib_call (TrainTestSplit (eval_ratio args) None)
             (train_test_split lib all_raw_data (eval_ratio args) None entropy) ;;
         emit (LogInfo "Tokenizing training data...") ;;
         train_raw <- getitem split_text_data "train" ;;
         train_tok_data <- tok_call self train_raw (VTrainArgs args) file_type ;;
         test_raw <- getitem split_text_data "test" ;;
         eval_tok_data <- tok_call self test_raw (VTrainArgs args) file_type ;;
         ret (train_tok_data, eval_tok_data)
       else
         train_file_type <- _check_file_type self input_filepath ;;
         eval_file_type <- _check_file_type self input_filepath ;;
         (if negb (String.eqb train_file_type eval_file_type)
          then raise (ValueError mismatch_msg)
          else ret tt) ;;
         raw_data <-
           lib_call
             (LoadDataset train_file_type
                [("train", input_filepath); ("eval", eval_filepath)] None)
             (load_dataset lib train_file_type
                [("train", input_filepath); ("eval", eval_filepath)]) ;;
         emit (LogInfo "Tokenizing training data...") ;;
         train_raw <- getitem raw_data "train" ;;
         train_tok_data <- tok_call self train_raw (VTrainArgs args) train_file_type ;;
         emit (LogInfo "Tokenizing eval data...") ;;
         eval_raw <- getitem raw_data "eval" ;;
         eval_tok_data <- tok_call self eval_raw (VTrainArgs args) train_file_type ;;
         ret (train_tok_data, eval_tok_data)
     else
       (if PyStr.endswith (save_preprocessed_data_path args) ".json"
        then raise (ValueError legacy_load_msg)
        else ret tt) ;;
       (if negb (String.eqb eval_filepath "")
        then emit (LogWarning (cache_warning args eval_filepath))
        else ret tt) ;;
       tok_data <-
         lib_call (LoadFromDisk (load_preprocessed_data_path args))
           (load_from_disk lib (load_preprocessed_data_path args)) ;;
       train_tok_data <- getitem tok_data "train" ;;
       eval_tok_data <- getitem tok_data "eval" ;;
       ret (train_tok_data, eval_tok_data)) ;;
  (if save_preprocessed_data args then
     (if PyStr.endswith (save_preprocessed_data_path args) ".json"
      then raise (ValueError legacy_save_msg)
      else ret tt) ;;
     let combined_tok := [("train", train_tok_data); ("eval", eval_tok_data)] in
     lib_call (SaveToDisk (save_preprocessed_data_path args) (map fst combined_tok))
       (save_to_disk lib (save_preprocessed_data_path args) combined_tok)
   else ret tt) ;;
  ret (train_tok_data, eval_tok_data).

Definition _preprocess_data_eval (self : Self) (input_filepath : string)
    (args : EvalArgs) : M TokDataset :=
  tokenized_dataset <-
    (if negb (e_load_preprocessed_data args) then
       emit (LogInfo "Preprocessing dataset...") ;;
       eval_file_type <- _check_file_type self input_filepath ;;
       datasets <-
         lib_call (LoadDataset eval_file_type [("eval", input_filepath)] None)
           (load_dataset lib eval_file_type [("eval", input_filepath)]) ;;
       eval_raw <- getitem datasets "eval" ;;
       tok_call self eval_raw (VEvalArgs args) eval_file_type
     else
       emit (LogInfo ("Loading dataset from " ++ e_load_preprocessed_data_path args
                      ++ "...")) ;;
       lib_call (LoadFromDisk (e_load_preprocessed_data_path args ++ "/eval"))
         (load_from_disk_dataset lib (e_load_preprocessed_data_path args ++ "/eval"))) ;;
  (if e_save_preprocessed_data args then
     (if e_load_preprocessed_data args
      then emit (LogWarning "Both save_preprocessed_data and load_data are enabled.")
      else ret tt) ;;
     emit (LogInfo ("Saving evaluating dataset to "
                    ++ e_save_preprocessed_data_path args ++ "...")) ;;
     let save_dataset := [("eval", tokenized_dataset)] in
     lib_call (SaveToDisk (e_save_preprocessed_data_path args) (map fst save_dataset))
       (save_to_disk lib (e_save_preprocessed_data_path args) save_dataset)
   else ret tt) ;;
  ret tokenized_dataset.

Definition fp16_msg : string :=
  "fp16 is only available when CUDA/ a GPU is being used. ".

(** The keyword arguments [_get_training_args] builds for [arg_class]. *)
Definition training_kwargs (self : Self) (args : TrainArgs) : TrainingArguments :=
  {| ta_seq2seq := type_is self "tt";
     ta_deepspeed := none_if_empty (deepspeed args);
     ta_output_dir := output_dir args;
     ta_learning_rate := learning_rate args;
     ta_weight_decay := weight_decay args;
     ta_adam_beta1 := adam_beta1 args;
     ta_adam_beta2 := adam_beta2 args;
     ta_adam_epsilon := adam_epsilon args;
     ta_max_grad_norm := max_grad_norm args;
     ta_num_train_epochs := num_train_epochs args;
     ta_report_to :=
       if Nat.eqb (List.length (report_to args)) 0 then ["none"]
       else report_to args;
     ta_save_strategy :=
       if Qlt_bool 0 (save_steps args) then "steps" else "no";
     ta_save_steps := save_steps args;
     ta_evaluation_strategy :=
       if Qlt_bool 0 (eval_steps args) then "steps" else "no";
     ta_eval_steps := eval_steps args;
     ta_logging_strategy :=
       if Qlt_bool 0 (logging_steps args) then "steps" else "no";
     ta_logging_steps := logging_steps args;
     ta_per_device_train_batch_size := batch_size args;
     ta_fp16 := fp16 args;
     ta_gradient_accumulation_steps := gas args;
     ta_use_mps_device :=
       if String.eqb (device_type (device self)) "mps" then true else false;
     ta_run_name := run_name args |}.

(** The source builds the ValueError under the fp16 guard and does not
    raise it. *)
Definition _get_training_args (self : Self) (args : TrainArgs)
    : M TrainingArguments :=
  (if negb (String.eqb (device_type (device self)) "cuda") then
     if fp16 args then expr_stmt (ValueError fp16_msg) else ret tt
   else ret tt) ;;
  let kwargs := training_kwargs self args in
  lib_call (NewTrainingArguments kwargs) (training_arguments_init lib kwargs) ;;
  ret kwargs.

(** [self._data_collator.mlm_probability = p] *)
Definition set_mlm_probability (self : Self) (p : Q) : M unit :=
  match _data_collator self with
  | None =>
      raise (AttributeError "'NoneType' object has no attribute 'mlm_probability'")
  | Some _ => emit (SetMlmProbability p)
  end.

Definition _run_train (self : Self) (train_dataset eval_dataset : TokDataset)
    (args : TrainArgs) (data_collator : option string) : M unit :=
  training_args <- _get_training_args self args ;;
  emit (SetEnviron "WANDB_PROJECT" (project_name args)) ;;
  (if type_is self "wp"
   then set_mlm_probability self (mlm_probability args)
   else ret tt) ;;
  let seq2seq_trainer := type_is self "tt" in
  lib_call (TrainerTrain seq2seq_trainer training_args train_dataset eval_dataset)
    (trainer_train lib seq2seq_trainer training_args train_dataset eval_dataset).

Definition eval_kwargs (self : Self) (output_path : string) (args : EvalArgs)
    : EvalTrainingArguments :=
  {| ea_output_dir := output_path;
     ea_seed := 42;
     ea_report_to := ["none"];
     ea_per_device_eval_batch_size := e_batch_size args;
     ea_use_mps_device :=
       if String.eqb (device_type (device self)) "mps" then true else false;
     ea_deepspeed := none_if_empty (e_deepspeed args) |}.

Definition _get_eval_args (self : Self) (output_path : string) (args : EvalArgs)
    : M EvalTrainingArguments :=
  let kwargs := eval_kwargs self output_path args in
  lib_call (NewEvalTrainingArguments kwargs) (eval_arguments_init lib kwargs) ;;
  ret kwargs.

Definition _run_eval (self : Self) (dataset : TokDataset)
    (data_collator : option string) (args : EvalArgs) : M (list (string * Q)) :=
  (if type_is self "wp"
   then set_mlm_probability self (e_mlm_probability args)
   else ret tt) ;;
  eval_args <- _get_eval_args self (tmp_dir_name lib) args ;;
  lib_call (TrainerEvaluate eval_args dataset) (trainer_evaluate lib eval_args dataset).

Definition dict_train_msg : string :=
  "Dictionary training arguments are no longer supported as of Happy Transformer version 2.5.0.".

Definition dict_eval_msg : string :=
  "Dictionary evaluating arguments are no longer supported as of Happy Transformer version 2.5.0.".

Definition eval_ratio_msg : string :=
  "Please set TrainArgs.eval_ratio to greater than 0  or supply an eval_path".

Definition train (self : Self) (input_filepath : string) (args : PyArgs TrainArgs)
    (eval_filepath : string) : M unit :=
  match args with
  | ArgsDict => raise (ValueError dict_train_msg)
  | ArgsObj args =>
      (if Qle_bool (eval_ratio args) 0 && String.eqb eval_filepath ""
       then raise (ValueError eval_ratio_msg)
       else ret tt) ;;
      ' (train_tok_data, eval_tok_data) <-
        _preprocess_data_train self input_filepath eval_filepath args ;;
      _run_train self train_tok_data eval_tok_data args (_data_collator self)
  end.

Definition eval (self : Self) (input_filepath : string) (args : PyArgs EvalArgs)
    : M EvalResult :=
  match args with
  | ArgsDict => raise (ValueError dict_eval_msg)
  | ArgsObj args =>
      tokenized_dataset <- _preprocess_data_eval self input_filepath args ;;
      result <- _run_eval self tokenized_dataset (_data_collator self) args ;;
      emit (Print "RESULT") ;;
      eval_loss <- getitem result "eval_loss" ;;
      ret {| loss := eval_loss |}
  end.

Definition test (self : Self) (input_filepath : string) : M unit :=
  raise (NotImplementedError "").

End Methods.
End HappyTransformer.

(** The TypeError Python raises when a method defined with two
    parameters after [self] is called with three arguments. *)
Definition arity_msg : string :=
  "_tok_function() takes 3 positional arguments but 4 were given".

(** ** class HappyGeneration(HappyTransformer) *)

Module HappyGeneration.
Section Methods.

Variable lib : Library.

(** [args.preprocessing_processes] on whatever was passed as [args] *)
Definition get_preprocessing_processes (args : PyVal) : M Z :=
  match args with
  | VTrainArgs a => ret (preprocessing_processes a)
  | VEvalArgs a => ret (e_preprocessing_processes a)
  | VRaw _ | VStr _ =>
      raise (AttributeError "object has no attribute 'preprocessing_processes'")
  end.

(** [def _tok_function(self, raw_dataset, args)]: two parameters. *)
Definition _tok_function : Method :=
  {| m_name := "_tok_function";
     m_params := 2;
     m_body := fun actuals =>
       match actuals with
       | [raw_dataset; args] =>
           processes <- get_preprocessing_processes args ;;
           match raw_dataset with
           | VRaw dataset =>
               lib_call (PreprocessConcatenate processes false)
                 (preprocess_concatenate lib dataset processes false)
           | _ =>
               lib_call (PreprocessConcatenate processes false)
                 (inl "dataset expected")
           end
       | _ => raise (TypeError "_tok_function() argument count")
       end |}.

(** [__init__]: the adaptor and the generation pipeline are set up but
    read by no method below, so the instance does not carry them. *)
Definition __init__ (model_type model_name load_path : string) : M Self :=
  base <- HappyTransformer.__init__ lib model_type model_name load_path ;;
  ret (Build_Self model_type model_name (tokenizer base) (device base)
         (Some "default_data_collator")   (* _data_collator *)
         (FTStr "text")                   (* _t_data_file_type *)
         (Some "gen")                     (* _type *)
         _tok_function).

(** [train(self, input_filepath, eval_filepath, args)] hands its
    arguments to the base class in the base class's order. *)
Definition train (self : Self) (input_filepath eval_filepath : string)
    (args : PyArgs TrainArgs) : M unit :=
  HappyTransformer.train lib self input_filepath args eval_filepath.

Definition eval (self : Self) (input_filepath : string) (args : PyArgs EvalArgs)
    : M EvalResult :=
  HappyTransformer.eval lib self input_filepath args.

Definition test (self : Self) (input_filepath : string) : M unit :=
  raise (NotImplementedError "test() is currently not available").

End Methods.
End HappyGeneration.

(** ** A task class that keeps the base signature

    The base class declares [_tok_function(self, raw_dataset, args, format)].
    [Conforming] is a subclass that overrides it with that signature and
    hands the rows to [preprocess_concatenate]; it serves to run the
    preprocessing past the tokenization step. *)

Module Conforming.
Section Methods.

Variable lib : Library.

Definition _tok_function : Method :=
  {| m_name := "_tok_function";
     m_params := 3;
     m_body := fun actuals =>
       match actuals with
       | [VRaw dataset; args; _] =>
           processes <- HappyGeneration.get_preprocessing_processes args ;;
           lib_call (PreprocessConcatenate processes false)
             (preprocess_concatenate lib dataset processes false)
       | _ => raise (TypeError "_tok_function() argument")
       end |}.

Definition instance (dev : Device) (file_types : FileTypes) : Self :=
  Build_Self "GPT2" "gpt2"
    {| pad_token := None; eos_token := None; tokenizer_len := 0 |}
    dev (Some "default_data_collator") file_types (Some "gen") _tok_function.

End Methods.
End Conforming.

(** ** The device preference in the words of the specification

    A specialized accelerator (mps) when it is available and built,
    otherwise a general GPU accelerator (cuda), otherwise the CPU. *)
Definition spec_device_preference (t : Torch) : Device :=
  if mps_is_available t && mps_is_built t then mps
  else if cuda_is_available t then cuda 0
  else cpu.

(** ** A small concrete world

    Two text files and one cache directory; a machine with no
    accelerator. [Demo.lib] splits as the [datasets] library documents it:
    the rows are rotated by the seed when one is given and by the state of
    the global generator when none is, and the first
    [ceil(test_size * n)] rows of the result form the test split. *)

Module Demo.

Definition files : list (string * RawDataset) :=
  [("train.txt", ["a"; "bb"]); ("eval.txt", ["ccc"]); ("eval.csv", ["x,y"])].

Definition cache : list (string * DatasetDict TokDataset) :=
  [("cache", [("train", [[1]; [2]]); ("eval", [[3]])]);
   ("cache.json", [("train", [[4]]); ("eval", [[5]])])].

Fixpoint rotate {A : Type} (k : nat) (l : list A) : list A :=
  match k, l with
  | S k', x :: l' => rotate k' (l' ++ [x])
  | _, _ => l
  end.

(** [ceil(q)] for [0 <= q] *)
Definition ceil (q : Q) : Z :=
  - ((- Qnum q) / Zpos (Qden q)).

Definition read_all (data_files : DatasetDict string)
    : string + DatasetDict RawDataset :=
  fold_right
    (fun kv acc =>
       match acc, lookup files (snd kv) with
       | inr d, Some rows => inr ((fst kv, rows) :: d)
       | inl msg, _ => inl msg
       | _, None => inl ("FileNotFoundError: " ++ snd kv)
       end)
    (inr []) data_files.

Definition split (ds : RawDataset) (test_size : Q) (seed : option Z)
    (np_state : N) : string + DatasetDict RawDataset :=
  let n := List.length ds in
  let k :=
    match seed with
    | Some s => Z.to_nat (s mod Z.max 1 (Z.of_nat n))
    | None => N.to_nat (np_state mod N.max 1 (N.of_nat n))
    end in
  let n_test := Z.to_nat (ceil (test_size * inject_Z (Z.of_nat n))) in
  let permuted := rotate k ds in
  inr [("train", skipn n_test permuted); ("test", firstn n_test permuted)].

Definition lib (t : Torch) : Library :=
  {| torch := t;
     from_pretrained := fun _ =>
       inr {| pad_token := None; eos_token := Some "<eos>"; tokenizer_len := 8 |};
     load_dataset_split := fun _ data_files split =>
       match read_all data_files with
       | inl msg => inl msg
       | inr d =>
           match lookup d split with
           | Some rows => inr rows
           | None => inl ("unknown split " ++ split)
           end
       end;
     load_dataset := fun _ data_files => read_all data_files;
     shuffle := fun ds seed =>
       rotate (Z.to_nat (seed mod Z.max 1 (Z.of_nat (List.length ds)))) ds;
     train_test_split := split;
     preprocess_concatenate := fun ds _ _ =>
       inr (map (fun row => [Z.of_nat (String.length row)]) ds);
     load_from_disk := fun path =>
       match lookup cache path with
       | Some d => inr d
       | None => inl ("FileNotFoundError: " ++ path)
       end;
     load_from_disk_dataset := fun path => inl ("FileNotFoundError: " ++ path);
     save_to_disk := fun _ _ => inr tt;
     training_arguments_init := fun _ => inr tt;
     eval_arguments_init := fun _ => inr tt;
     trainer_train := fun _ _ _ _ => inr tt;
     tmp_dir_name := "/tmp/tmpdir";
     trainer_evaluate := fun _ _ => inr [("eval_loss", 1 # 2)] |}.

Definition cpu_only : Torch :=
  {| mps_is_available := false; mps_is_built := false; cuda_is_available := false |}.

Definition all_accelerators : Torch :=
  {| mps_is_available := true; mps_is_built := true; cuda_is_available := true |}.

Definition world0 : World := {| trace := []; np_random := 0 |}.
Definition world1 : World := {| trace := []; np_random := 1 |}.

(** Training arguments with the library's defaults, but for the eval
    ratio, [fp16] and the cache settings. *)
Definition make_args (ratio : Q) (half : bool) (save : bool) (save_path : string)
    (load : bool) (load_path : string) : TrainArgs :=
  {| learning_rate := 5 # 100000;
     weight_decay := 0;
     adam_beta1 := 9 # 10;
     adam_beta2 := 999 # 1000;
     adam_epsilon := 1 # 100000000;
     max_grad_norm := 1;
     num_train_epochs := 1;
     report_to := [];
     save_steps := 0;
     eval_steps := 1 # 10;
     logging_steps := 1 # 10;
     batch_size := 1;
     fp16 := half;
     gas := 1;
     eval_ratio := ratio;
     output_dir := "happy_transformer";
     run_name := "test-run";
     project_name := "happy-transformer";
     deepspeed := "";
     mlm_probability := 15 # 100;
     preprocessing_processes := 1;
     save_preprocessed_data := save;
     save_preprocessed_data_path := save_path;
     load_preprocessed_data := load;
     load_preprocessed_data_path := load_path |}.

Definition args : TrainArgs := make_args (1 # 2) false false "" false "".

(** The instance [HappyGeneration()] builds on the [cpu_only] machine. *)
Definition happy_gen : Self :=
  Build_Self "GPT2" "gpt2"
    {| pad_token := Some "<eos>"; eos_token := Some "<eos>"; tokenizer_len := 8 |}
    cpu (Some "default_data_collator") (FTStr "text") (Some "gen")
    (HappyGeneration._tok_function (lib cpu_only)).

End Demo.

(** ** Whitespace stripping

    [str.strip()] with no argument, on strings whose characters are code
    points below 256: the characters [str.isspace] accepts are removed
    from both ends. *)

Module PyWhitespace.

(** [c.isspace()] for a code point below 256: tab to carriage return,
    the four separators 28 to 31, space, next line (133) and no-break
    space (160). *)
Definition is_space (c : ascii) : bool :=
  let n := nat_of_ascii c in
  ((9 <=? n) && (n <=? 13) || (28 <=? n) && (n <=? 32)
   || (n =? 133) || (n =? 160))%nat.

Fixpoint lstrip (s : string) : string :=
  match s with
  | EmptyString => EmptyString
  | String c s' => if is_space c then lstrip s' else s
  end.

Fixpoint rstrip (s : string) : string :=
  match s with
  | EmptyString => EmptyString
  | String c s' =>
      match rstrip s' with
      | EmptyString => if is_space c then EmptyString else String c EmptyString
      | r => String c r
      end
  end.

Definition strip (s : string) : string := rstrip (lstrip s).

(** Every character of [s] is whitespace. *)
Fixpoint all_space (s : string) : bool :=
  match s with
  | EmptyString => true
  | String c s' => is_space c && all_space s'
  end.

End PyWhitespace.

(** ** Text generation in [HappyGeneration]

    [generate_text] and the two private helpers of the class. The
    tokenizer and the generation pipeline are parameters; a call fails
    with a message or returns. [IndexError] is the one exception of this
    part that the training code never meets. *)

Module Generate.

Inductive PyError : Type :=
| Raised (e : Exn)
| IndexError (msg : string).

Record GENSettings : Type := {
  min_length : Z;
  max_length : Z;
  do_sample : bool;
  early_stopping : bool;
  num_beams : Z;
  temperature : Q;
  top_k : Z;
  no_repeat_ngram_size : Z;
  top_p : Q;
  bad_words : option (list string)
}.

(** [GENSettings()] *)
Definition default_settings : GENSettings :=
  {| min_length := 10;
     max_length := 50;
     do_sample := false;
     early_stopping := false;
     num_beams := 1;
     temperature := 1;
     top_k := 50;
     no_repeat_ngram_size := 0;
     top_p := 1;
     bad_words := None |}.

Record GenerationResult : Type := { text : string }.

(** What a caller may pass as [text]. *)
Inductive TextArg : Type :=
| TStr (s : string)
| TOther.

(** The keyword arguments of the pipeline call. *)
Record PipelineKwargs : Type := {
  kw_min_length : Z;
  kw_return_full_text : bool;
  kw_max_length : Z;
  kw_do_sample : bool;
  kw_early_stopping : bool;
  kw_num_beams : Z;
  kw_temperature : Q;
  kw_top_k : Z;
  kw_no_repeat_ngram_size : Z;
  kw_top_p : Q;
  kw_bad_words_ids : option (list (list Z))
}.

(** [encode] is [tokenizer.encode(text, return_tensors=...)] (the one row
    of ids it returns), [input_ids] is [tokenizer(text).input_ids],
    [pipeline] the call of the [TextGenerationPipeline]; its outputs are
    dicts. *)
Record GenLibrary : Type := {
  encode : string -> string + list Z;
  input_ids : string -> string + list Z;
  pipeline : string -> PipelineKwargs -> string + list (list (string * string))
}.

Definition lift {A : Type} (r : string + A) : PyError + A :=
  match r with
  | inl msg => inl (Raised (LibraryError msg))
  | inr a => inr a
  end.

Definition text_type_msg : string := "The text input must be a string".

Definition text_empty_msg : string :=
  "The text input must have at least one character".

(** [__assert_default_text_is_val]: returns the string it accepted. *)
Definition __assert_default_text_is_val (text : TextArg) : PyError + string :=
  match text with
  | TOther => inl (Raised (ValueError text_type_msg))
  | TStr s =>
      if String.eqb s "" then inl (Raised (ValueError text_empty_msg))
      else inr s
  end.

(** The list comprehension over [args.bad_words]: phrases are tokenized
    left to right, the first failure ends it. *)
Fixpoint bad_words_comprehension (lib : GenLibrary) (phrases : list string)
    : PyError + list (list Z) :=
  match phrases with
  | [] => inr []
  | phrase :: rest =>
      match lift (input_ids lib (" " ++ PyWhitespace.strip phrase)) with
      | inl e => inl e
      | inr ids =>
          match bad_words_comprehension lib rest with
          | inl e => inl e
          | inr more => inr (ids :: more)
          end
      end
  end.

Definition generate_text (lib : GenLibrary) (text : TextArg) (args : GENSettings)
    : PyError + GenerationResult :=
  match __assert_default_text_is_val text with
  | inl e => inl e
  | inr text =>
      match lift (encode lib text) with
      | inl e => inl e
      | inr prompt_ids =>
          let adjusted_min_length := min_length args + Z.of_nat (List.length prompt_ids) in
          let adjusted_max_length := max_length args + Z.of_nat (List.length prompt_ids) in
          match
            match bad_words args with
            | None | Some [] => inr None
            | Some phrases =>
                match bad_words_comprehension lib phrases with
                | inl e => inl e
                | inr ids => inr (Some ids)
                end
            end
          with
          | inl e => inl e
          | inr bad_words_ids =>
              match
                lift (pipeline lib text
                        {| kw_min_length := adjusted_min_length;
                           kw_return_full_text := false;
                           kw_max_length := adjusted_max_length;
                           kw_do_sample := do_sample args;
                           kw_early_stopping := early_stopping args;
                           kw_num_beams := num_beams args;
                           kw_temperature := temperature args;
                           kw_top_k := top_k args;
                           kw_no_repeat_ngram_size := no_repeat_ngram_size args;
                           kw_top_p := top_p args;
                           kw_bad_words_ids := bad_words_ids |})
              with
              | inl e => inl e
              | inr output =>
                  match output with
                  | [] => inl (IndexError "list index out of range")
                  | first :: _ =>
                      match lookup first "generated_text" with
                      | None => inl (Raised (KeyError "generated_text"))
                      | Some generated => inr {| text := generated |}
                      end
                  end
              end
          end
      end
  end.

(** [__post_process_generated_text]: [result[len(text):]] *)
Definition __post_process_generated_text (result text : string) : string :=
  PyStr.slice_from result (PyStr.len text).

(** [args] with another list of bad words. *)
Definition set_bad_words (args : GENSettings) (phrases : option (list string))
    : GENSettings :=
  {| min_length := min_length args;
     max_length := max_length args;
     do_sample := do_sample args;
     early_stopping := early_stopping args;
     num_beams := num_beams args;
     temperature := temperature args;
     top_k := top_k args;
     no_repeat_ngram_size := no_repeat_ngram_size args;
     top_p := top_p args;
     bad_words := phrases |}.

(** A toy tokenizer (one id per character) and a pipeline that answers
    every prompt with the same continuation. *)
Definition demo_lib : GenLibrary :=
  {| encode := fun s =>
       inr (map (fun c => Z.of_nat (nat_of_ascii c)) (list_ascii_of_string s));
     input_ids := fun s =>
       inr (map (fun c => Z.of_nat (nat_of_ascii c)) (list_ascii_of_string s));
     pipeline := fun _ _ => inr [[("generated_text", " world")]] |}.

End Generate.

(** ** examples/text-to-text/training_translation.py

    [generate_csv]: the rows the function has written to the file at
    [csv_path] when it returns or raises (the file is opened for writing,
    so what was there before is gone). A case of the dataset has a
    [source] text and a list of [targets]. *)

Module TrainingTranslation.



Definition prefix : string := "translate English to Persian: ".



End TrainingTranslation.

(** ** A library that validates

    [Demo.lib] on the CPU, except that building training arguments with
    [fp16] on is refused and that evaluation reports no loss. *)

Module Strict.

Definition lib : Library :=
  let base := Demo.lib Demo.cpu_only in
  {| torch := torch base;
     from_pretrained := from_pretrained base;
     load_dataset_split := load_dataset_split base;
     load_dataset := load_dataset base;
     shuffle := shuffle base;
     train_test_split := train_test_split base;
     preprocess_concatenate := preprocess_concatenate base;
     load_from_disk := load_from_disk base;
     load_from_disk_dataset := fun path =>
       if String.eqb path "cache/eval" then inr [[3]]
       else inl ("FileNotFoundError: " ++ path);
     save_to_disk := save_to_disk base;
     training_arguments_init := fun kwargs =>
       if ta_fp16 kwargs then inl "fp16 can only be used on CUDA devices"
       else inr tt;
     eval_arguments_init := eval_arguments_init base;
     trainer_train := trainer_train base;
     tmp_dir_name := tmp_dir_name base;
     trainer_evaluate := fun _ _ => inr [("eval_runtime", 1 # 1)] |}.

Definition eval_args (save : bool) (save_path : string) (load : bool)
    (load_path : string) : EvalArgs :=
  {| e_batch_size := 1;
     e_deepspeed := "";
     e_mlm_probability := 15 # 100;
     e_preprocessing_processes := 1;
     e_save_preprocessed_data := save;
     e_save_preprocessed_data_path := save_path;
     e_load_preprocessed_data := load;
     e_load_preprocessed_data_path := load_path |}.

(** A masked-word instance (task type wp) with a data collator. *)
Definition word_prediction : Self :=
  Build_Self "BERT" "bert-base-uncased"
    {| pad_token := Some "[PAD]"; eos_token := None; tokenizer_len := 8 |}
    cpu (Some "DataCollatorForLanguageModeling") (FTList ["text"; "csv"])
    (Some "wp") (Conforming._tok_function lib).

End Strict.

(** * Properties *)

Import HappyTransformer.

(** ** Strings and paths *)

Example splitext_plain : OsPath.splitext "data/train.txt" = ("data/train", ".txt").
Proof. reflexivity. Qed.

Example splitext_hidden : OsPath.splitext "data/.bashrc" = ("data/.bashrc", "").
Proof. reflexivity. Qed.

Example splitext_dotdir : OsPath.splitext "a.b/c" = ("a.b/c", "").
Proof. reflexivity. Qed.

Example splitext_two : OsPath.splitext "x.tar.csv" = ("x.tar", ".csv").
Proof. reflexivity. Qed.

Example endswith_json : PyStr.endswith "cache.json" ".json" = true.
Proof. reflexivity. Qed.

Example endswith_short : PyStr.endswith "son" ".json" = false.
Proof. reflexivity. Qed.

Lemma Qlt_bool_iff (x y : Q) : Qlt_bool x y = true <-> (x < y)%Q.
Proof.
  unfold Qlt_bool. rewrite negb_true_iff. split.
  - intros H. apply Qnot_le_lt. intros Hle.
    apply Qle_bool_iff in Hle. congruence.
  - intros H. destruct (Qle_bool y x) eqn:E; [ | reflexivity ].
    apply Qle_bool_iff in E. exfalso. exact (Qlt_not_le _ _ H E).
Qed.

Lemma Qlt_bool_false_iff (x y : Q) : Qlt_bool x y = false <-> (y <= x)%Q.
Proof.
  unfold Qlt_bool. rewrite negb_false_iff. apply Qle_bool_iff.
Qed.

(** What the step-based choice computes, for any of the three axes. *)
Lemma strategy_steps_iff (x : Q) :
  ((if Qlt_bool 0 x then "steps" else "no") = "steps" <-> (0 < x)%Q)
  /\ ((if Qlt_bool 0 x then "steps" else "no") = "no" <-> (x <= 0)%Q).
Proof.
  destruct (Qlt_bool 0 x) eqn:E.
  - apply Qlt_bool_iff in E. split; split; intros H; try reflexivity; try assumption.
    + discriminate.
    + exfalso. exact (Qlt_not_le _ _ E H).
  - apply Qlt_bool_false_iff in E. split; split; intros H; try reflexivity; try assumption.
    + discriminate.
    + exfalso. exact (Qlt_not_le _ _ H E).
Qed.

(** ** Running the monad *)

Lemma bind_inr {A B : Type} (c : M A) (k : A -> M B) (w w' : World) (a : A) :
  c w = (w', inr a) -> bind c k w = k a w'.
Proof. intros H. unfold bind. rewrite H. reflexivity. Qed.

Lemma after_nil (w : World) : after w [] = w.
Proof. destruct w; unfold after; cbn. rewrite app_nil_r. reflexivity. Qed.

Lemma after_after (w : World) (l1 l2 : list Event) :
  after (after w l1) l2 = after w (l1 ++ l2).
Proof. unfold after; cbn. rewrite app_assoc. reflexivity. Qed.

Lemma emit_run (e : Event) (w : World) : emit e w = (after w [e], inr tt).
Proof. reflexivity. Qed.

Lemma lib_call_run {A : Type} (e : Event) (r : string + A) (w : World) :
  lib_call e r w =
  (after w [e], match r with inl msg => inl (LibraryError msg) | inr a => inr a end).
Proof. unfold lib_call, bind, emit, raise, ret, after. destruct r; reflexivity. Qed.

Lemma bind_assoc_run {A B C : Type} (c : M A) (k : A -> M B) (k' : B -> M C)
    (w : World) :
  bind (bind c k) k' w = bind c (fun x => bind (k x) k') w.
Proof. unfold bind. destruct (c w) as [w' [e | a]]; reflexivity. Qed.

Lemma bind_ret_run {A B : Type} (a : A) (k : A -> M B) (w : World) :
  bind (ret a) k w = k a w.
Proof. reflexivity. Qed.

Lemma bind_expr_stmt_run {A B : Type} (a : A) (k : unit -> M B) (w : World) :
  bind (expr_stmt a) k w = k tt w.
Proof. reflexivity. Qed.

Lemma bind_raise_run {A B : Type} (e : Exn) (k : A -> M B) (w : World) :
  bind (raise e) k w = (w, inl e).
Proof. reflexivity. Qed.

Lemma bind_emit_run {B : Type} (e : Event) (k : unit -> M B) (w : World) :
  bind (emit e) k w = k tt (after w [e]).
Proof. reflexivity. Qed.

Lemma bind_lib_call_run {A B : Type} (e : Event) (r : string + A) (k : A -> M B)
    (w : World) :
  bind (lib_call e r) k w =
  match r with
  | inl msg => (after w [e], inl (LibraryError msg))
  | inr a => k a (after w [e])
  end.
Proof. unfold bind. rewrite lib_call_run. destruct r; reflexivity. Qed.

Lemma bind_getitem_run {V B : Type} (d : list (string * V)) (key : string)
    (k : V -> M B) (w : World) :
  bind (getitem d key) k w =
  match lookup d key with
  | Some v => k v w
  | None => (w, inl (KeyError key))
  end.
Proof. unfold bind, getitem. destruct (lookup d key); reflexivity. Qed.

Lemma bind_get_np_random_run {B : Type} (k : N -> M B) (w : World) :
  bind get_np_random k w = k (np_random w) w.
Proof. reflexivity. Qed.

Lemma np_random_after (w : World) (evs : list Event) :
  np_random (after w evs) = np_random w.
Proof. reflexivity. Qed.

(** One step of symbolic execution at the head of a run. *)
Ltac mstep :=
  first
    [ rewrite bind_assoc_run
    | rewrite bind_ret_run
    | rewrite bind_expr_stmt_run
    | rewrite bind_raise_run
    | rewrite bind_emit_run
    | rewrite bind_lib_call_run
    | rewrite bind_getitem_run
    | rewrite bind_get_np_random_run
    | rewrite after_after
    | rewrite np_random_after
    | rewrite emit_run
    | rewrite lib_call_run ].

Ltac mrun := repeat (mstep; cbn beta iota).

(** ** Training configuration *)

(** The class's own fp16 guard builds an exception and drops it: what
    [_get_training_args] returns is decided by the library's constructor
    alone, whatever [fp16] and the device are. *)
Lemma get_training_args_run lib self args w :
  _get_training_args lib self args w =
  ({| trace := trace w ++ [NewTrainingArguments (training_kwargs self args)];
      np_random := np_random w |},
   match training_arguments_init lib (training_kwargs self args) with
   | inl msg => inl (LibraryError msg)
   | inr _ => inr (training_kwargs self args)
   end).
Proof.
  unfold _get_training_args, lib_call, bind, emit, expr_stmt, ret, raise.
  destruct (negb (device_type (device self) =? "cuda")%string), (fp16 args);
    destruct (training_arguments_init lib (training_kwargs self args));
    reflexivity.
Qed.

(** C8: in the configuration built from any training arguments, the save,
    evaluation and logging strategies are "steps" exactly when the
    matching step value is greater than zero and "no" otherwise, so a
    value of zero turns the axis off; and this configuration is what
    [_get_training_args] returns whenever it returns. *)
Theorem strategies_follow_steps (self : Self) (args : TrainArgs) :
  let cfg := training_kwargs self args in
  (ta_save_strategy cfg = "steps" <-> (0 < save_steps args)%Q)
  /\ (ta_save_strategy cfg = "no" <-> (save_steps args <= 0)%Q)
  /\ (ta_evaluation_strategy cfg = "steps" <-> (0 < eval_steps args)%Q)
  /\ (ta_evaluation_strategy cfg = "no" <-> (eval_steps args <= 0)%Q)
  /\ (ta_logging_strategy cfg = "steps" <-> (0 < logging_steps args)%Q)
  /\ (ta_logging_strategy cfg = "no" <-> (logging_steps args <= 0)%Q)
  /\ ((save_steps args == 0)%Q -> ta_save_strategy cfg = "no")
  /\ ((eval_steps args == 0)%Q -> ta_evaluation_strategy cfg = "no")
  /\ ((logging_steps args == 0)%Q -> ta_logging_strategy cfg = "no")
  /\ ta_save_steps cfg = save_steps args
  /\ ta_eval_steps cfg = eval_steps args
  /\ ta_logging_steps cfg = logging_steps args
  /\ (forall lib w w' r,
        _get_training_args lib self args w = (w', inr r) -> r = cfg).
Proof.
  cbv zeta. unfold training_kwargs at 1 2 3 4 5 6 7 8 9 10 11 12.
  cbn [ta_save_strategy ta_evaluation_strategy ta_logging_strategy
       ta_save_steps ta_eval_steps ta_logging_steps].
  pose proof (strategy_steps_iff (save_steps args)) as [Hs1 Hs2].
  pose proof (strategy_steps_iff (eval_steps args)) as [He1 He2].
  pose proof (strategy_steps_iff (logging_steps args)) as [Hl1 Hl2].
  assert (Hzero : forall x : Q, (x == 0)%Q -> (x <= 0)%Q).
  { intros x Hx. rewrite Hx. apply Qle_refl. }
  repeat match goal with |- _ /\ _ => split end;
    try assumption; try reflexivity.
  - intros Hx. apply Hs2, Hzero, Hx.
  - intros Hx. apply He2, Hzero, Hx.
  - intros Hx. apply Hl2, Hzero, Hx.
  - intros lib w w' r H. rewrite get_training_args_run in H.
    destruct (training_arguments_init lib (training_kwargs self args));
      inversion H; reflexivity.
Qed.

(** Zero save steps and positive eval steps: the first strategy is off,
    the second step-based. *)
Lemma strategies_follow_steps_witness :
  let cfg := training_kwargs Demo.happy_gen Demo.args in
  ta_save_strategy cfg = "no"
  /\ ta_evaluation_strategy cfg = "steps"
  /\ _get_training_args (Demo.lib Demo.cpu_only) Demo.happy_gen Demo.args Demo.world0
     = ({| trace := [NewTrainingArguments cfg]; np_random := 0 |}, inr cfg).
Proof.
  cbv zeta.
  pose proof (strategies_follow_steps Demo.happy_gen Demo.args) as H.
  cbv zeta in H.
  destruct H as (_ & Hno & Hev & _).
  split; [ apply Hno; vm_compute; discriminate | ].
  split; [ apply Hev; reflexivity | reflexivity ].
Defined.

(** ** Argument validation in [train] *)

(** C5: with [eval_ratio <= 0] and no eval file path, [train] raises the
    ValueError that asks for an eval ratio or an eval path, and the world
    is the one it started from: no file was read, nothing was tokenized,
    no library call was made. The same holds through
    [HappyGeneration.train]. *)
Theorem train_rejects_missing_eval
    (lib : Library) (self : Self) (input_filepath : string) (args : TrainArgs)
    (w : World) :
  (eval_ratio args <= 0)%Q ->
  train lib self input_filepath (ArgsObj args) "" w
    = (w, inl (ValueError eval_ratio_msg))
  /\ HappyGeneration.train lib self input_filepath "" (ArgsObj args) w
    = (w, inl (ValueError eval_ratio_msg)).
Proof.
  intros H. apply Qle_bool_iff in H.
  unfold HappyGeneration.train, train, bind, raise. rewrite H. cbn. auto.
Qed.

Lemma train_rejects_missing_eval_witness :
  train (Demo.lib Demo.cpu_only) Demo.happy_gen "train.txt"
    (ArgsObj (Demo.make_args 0 false false "" false "")) "" Demo.world0
  = (Demo.world0, inl (ValueError eval_ratio_msg)).
Proof.
  apply (train_rejects_missing_eval (Demo.lib Demo.cpu_only) Demo.happy_gen
           "train.txt" (Demo.make_args 0 false false "" false "") Demo.world0).
  vm_compute. discriminate.
Defined.

(** ** Device selection *)

(** C7, as stated, fails where both accelerators are present: the code
    picks cuda, the stated order picks mps. *)
Lemma device_preference_counterexample :
  mps_is_available Demo.all_accelerators = true
  /\ mps_is_built Demo.all_accelerators = true
  /\ spec_device_preference Demo.all_accelerators = mps
  /\ to_auto_device (Demo.lib Demo.all_accelerators) Demo.world0
     = ({| trace := [ModelTo (cuda 0)]; np_random := 0 |}, inr (cuda 0)).
Proof. repeat split. Qed.

(** C7, amended: the device selected at construction is cuda when cuda
    is available, otherwise mps when mps is available and built, otherwise
    the CPU; the model is moved to that device, and whenever the
    components load, [__init__] returns an instance whose [device]
    attribute is that device. *)
Theorem device_selection
    (lib : Library) (model_type model_name load_path : string) (w : World) :
  let d :=
    if cuda_is_available (torch lib) then cuda 0
    else if mps_is_available (torch lib) && mps_is_built (torch lib) then mps
    else cpu in
  to_auto_device lib w = (after w [ModelTo d], inr d)
  /\ (forall tok,
        from_pretrained lib
          (if negb (load_path =? "")%string then load_path else model_name)
        = inr tok ->
        exists w' self,
          __init__ lib model_type model_name load_path w = (w', inr self)
          /\ device self = d
          /\ In (ModelTo d) (trace w')).
Proof.
  cbv zeta.
  set (d := if cuda_is_available (torch lib) then cuda 0
            else if mps_is_available (torch lib) && mps_is_built (torch lib)
                 then mps else cpu).
  assert (Hdev : forall w0, to_auto_device lib w0 = (after w0 [ModelTo d], inr d)).
  { intros w0. unfold to_auto_device, bind, emit, ret, after, d.
    destruct (mps_is_available (torch lib)), (mps_is_built (torch lib)),
      (cuda_is_available (torch lib)); reflexivity. }
  split; [ apply Hdev | ].
  intros tok Htok.
  unfold __init__.
  rewrite (bind_inr _ _ w
             (after w [FromPretrained
                         (if negb (load_path =? "")%string
                          then load_path else model_name)]) tok); cycle 1.
  { unfold _get_model_components.
    destruct (negb (load_path =? "")%string);
      rewrite lib_call_run, Htok; reflexivity. }
  erewrite bind_inr by apply Hdev.
  erewrite bind_inr by apply emit_run.
  erewrite bind_inr by apply emit_run.
  unfold ret. eexists. eexists. split; [ reflexivity | ].
  split; [ reflexivity | ].
  cbn. rewrite !in_app_iff. cbn. tauto.
Qed.

Lemma device_selection_witness :
  exists w' self,
    __init__ (Demo.lib Demo.all_accelerators) "GPT2" "gpt2" "" Demo.world0
      = (w', inr self)
    /\ device self = cuda 0
    /\ In (ModelTo (cuda 0)) (trace w').
Proof.
  pose proof (device_selection (Demo.lib Demo.all_accelerators)
                "GPT2" "gpt2" "" Demo.world0) as H.
  cbv zeta in H. destruct H as [_ H].
  exact (H _ eq_refl).
Defined.

(** ** The file-type resolver *)

(** The resolver never touches the world, and its outcome is: a KeyError
    for an extension outside the table, a TypeError when the task set no
    supported formats, the table's entry otherwise. Whether the entry is
    among the supported formats makes no difference. *)
Lemma check_file_type_run (self : Self) (file_path : string) (w : World) :
  _check_file_type self file_path w =
  (w,
   match lookup ending_map (snd (OsPath.splitext file_path)) with
   | None => inl (KeyError (snd (OsPath.splitext file_path)))
   | Some ending =>
       match _t_data_file_type self with
       | FTNone => inl (TypeError "argument of type 'NoneType' is not iterable")
       | FTStr _ | FTList _ => inr ending
       end
   end).
Proof.
  unfold _check_file_type, getitem, not_in, expr_stmt, bind, ret, raise.
  destruct (lookup ending_map (snd (OsPath.splitext file_path))) as [ending | ];
    [ | reflexivity ].
  destruct (_t_data_file_type self) as [ | s | l ]; [ reflexivity | | ].
  - destruct (negb (PyStr.contains ending s)); reflexivity.
  - destruct (negb (existsb (String.eqb ending) l)); reflexivity.
Qed.

Lemma check_file_type_supported (self : Self) (file_path : string) (w : World) :
  _t_data_file_type self <> FTNone ->
  (snd (OsPath.splitext file_path) = ".txt" ->
   _check_file_type self file_path w = (w, inr "text"))
  /\ (snd (OsPath.splitext file_path) = ".csv" ->
      _check_file_type self file_path w = (w, inr "csv")).
Proof.
  intros Hft. split; intros Hext; rewrite check_file_type_run, Hext; cbn;
    destruct (_t_data_file_type self); congruence.
Qed.

Lemma check_file_type_unknown (self : Self) (file_path : string) (w : World) :
  snd (OsPath.splitext file_path) <> ".txt" ->
  snd (OsPath.splitext file_path) <> ".csv" ->
  _check_file_type self file_path w
    = (w, inl (KeyError (snd (OsPath.splitext file_path)))).
Proof.
  intros Htxt Hcsv. rewrite check_file_type_run. unfold ending_map.
  cbn [lookup].
  destruct (String.eqb_spec ".txt" (snd (OsPath.splitext file_path)));
    [ congruence | ].
  destruct (String.eqb_spec ".csv" (snd (OsPath.splitext file_path)));
    [ congruence | reflexivity ].
Qed.

(** C4 at [eval.csv] for the generation task, whose supported formats are
    the string "text": csv is not among them, the guard is taken, and the
    resolver still returns "csv"; for no instance, path and world does the
    resolver raise a ValueError; an unknown extension surfaces as the
    KeyError of the table lookup. *)
Theorem unsupported_format_not_rejected :
  _t_data_file_type Demo.happy_gen = FTStr "text"
  /\ not_in "csv" (_t_data_file_type Demo.happy_gen) Demo.world0
     = (Demo.world0, inr true)
  /\ _check_file_type Demo.happy_gen "eval.csv" Demo.world0
     = (Demo.world0, inr "csv")
  /\ _check_file_type Demo.happy_gen "notes.json" Demo.world0
     = (Demo.world0, inl (KeyError ".json"))
  /\ (forall self file_path w msg,
        snd (_check_file_type self file_path w) <> inl (ValueError msg)).
Proof.
  repeat split.
  intros self file_path w msg. rewrite check_file_type_run. cbn [snd].
  destruct (lookup ending_map (snd (OsPath.splitext file_path)));
    [ destruct (_t_data_file_type self) | ]; discriminate.
Qed.

(** ** Loading preprocessed data *)

(** The whole of the load branch, when the save path passes the legacy
    check: an optional warning, the disk load, the two subscripts, an
    optional save. *)
Lemma preprocess_cache_run
    (lib : Library) (self : Self) (input_filepath eval_filepath : string)
    (args : TrainArgs) (w : World) :
  load_preprocessed_data args = true ->
  PyStr.endswith (save_preprocessed_data_path args) ".json" = false ->
  _preprocess_data_train lib self input_filepath eval_filepath args w =
  let w1 :=
    after w ((if negb (eval_filepath =? "")%string
              then [LogWarning (cache_warning args eval_filepath)] else [])
             ++ [LoadFromDisk (load_preprocessed_data_path args)]) in
  match load_from_disk lib (load_preprocessed_data_path args) with
  | inl msg => (w1, inl (LibraryError msg))
  | inr d =>
      match lookup d "train", lookup d "eval" with
      | None, _ => (w1, inl (KeyError "train"))
      | Some _, None => (w1, inl (KeyError "eval"))
      | Some tr, Some ev =>
          if save_preprocessed_data args then
            (after w1 [SaveToDisk (save_preprocessed_data_path args) ["train"; "eval"]],
             match save_to_disk lib (save_preprocessed_data_path args)
                     [("train", tr); ("eval", ev)] with
             | inl msg => inl (LibraryError msg)
             | inr _ => inr (tr, ev)
             end)
          else (w1, inr (tr, ev))
      end
  end.
Proof.
  intros Hload Hsave. cbv zeta.
  unfold _preprocess_data_train. rewrite Hload, Hsave. cbn [negb].
  destruct (negb (eval_filepath =? "")%string); mrun; cbn [app];
    try rewrite after_nil;
    (destruct (load_from_disk lib (load_preprocessed_data_path args)) as [msg | d];
     [ reflexivity | ]);
    mrun;
    (destruct (lookup d "train") as [tr | ]; [ | reflexivity ]);
    mrun;
    (destruct (lookup d "eval") as [ev | ]; [ | reflexivity ]);
    mrun;
    (destruct (save_preprocessed_data args); [ | reflexivity ]);
    mrun; cbn [map fst app]; unfold ret;
    destruct (save_to_disk lib (save_preprocessed_data_path args)
                [("train", tr); ("eval", ev)]); reflexivity.
Qed.

(** [train] with an argument object that passes the first checks is the
    preprocessing followed by the run. *)
Lemma train_unfold
    (lib : Library) (self : Self) (input_filepath eval_filepath : string)
    (args : TrainArgs) (w : World) :
  Qle_bool (eval_ratio args) 0 && (eval_filepath =? "")%string = false ->
  train lib self input_filepath (ArgsObj args) eval_filepath w =
  match _preprocess_data_train lib self input_filepath eval_filepath args w with
  | (w', inl e) => (w', inl e)
  | (w', inr (train_tok_data, eval_tok_data)) =>
      _run_train lib self train_tok_data eval_tok_data args (_data_collator self) w'
  end.
Proof.
  intros Hchk. unfold train. rewrite Hchk. mrun. unfold bind.
  destruct (_preprocess_data_train lib self input_filepath eval_filepath args w)
    as [w' [e | [tr ev]]]; reflexivity.
Qed.

(** C10: in the load branch the legacy check reads the save path. Whatever
    the load path is (a path ending in .json included) and whether or not
    saving was requested, a save path ending in .json ends the call with
    the legacy-format ValueError before anything else happens; with any
    other save path the load path goes to the disk loader, and no
    ValueError comes out of the preprocessing. *)
Theorem legacy_check_inspects_save_path
    (lib : Library) (self : Self) (input_filepath eval_filepath : string)
    (args : TrainArgs) (w : World) :
  load_preprocessed_data args = true ->
  (PyStr.endswith (save_preprocessed_data_path args) ".json" = true ->
   _preprocess_data_train lib self input_filepath eval_filepath args w
     = (w, inl (ValueError legacy_load_msg)))
  /\ (PyStr.endswith (save_preprocessed_data_path args) ".json" = false ->
      exists evs r,
        _preprocess_data_train lib self input_filepath eval_filepath args w
          = (after w evs, r)
        /\ In (LoadFromDisk (load_preprocessed_data_path args)) evs
        /\ (forall msg, r <> inl (ValueError msg))).
Proof.
  intros Hload. split; intros Hsave.
  - unfold _preprocess_data_train. rewrite Hload, Hsave. cbn [negb]. mrun.
    reflexivity.
  - rewrite (preprocess_cache_run lib self input_filepath eval_filepath args w
               Hload Hsave).
    cbv zeta.
    set (evs := ((if negb (eval_filepath =? "")%string
                  then [LogWarning (cache_warning args eval_filepath)] else [])
                 ++ [LoadFromDisk (load_preprocessed_data_path args)])%list).
    assert (Hin : In (LoadFromDisk (load_preprocessed_data_path args)) evs).
    { unfold evs. apply in_or_app. right. left. reflexivity. }
    destruct (load_from_disk lib (load_preprocessed_data_path args)) as [msg | d].
    { exists evs. eexists. split; [ reflexivity | ]. split; [ exact Hin | ].
      discriminate. }
    destruct (lookup d "train") as [tr | ].
    2:{ exists evs. eexists. split; [ reflexivity | ]. split; [ exact Hin | ].
        discriminate. }
    destruct (lookup d "eval") as [ev | ].
    2:{ exists evs. eexists. split; [ reflexivity | ]. split; [ exact Hin | ].
        discriminate. }
    destruct (save_preprocessed_data args).
    + rewrite after_after.
      eexists. eexists. split; [ reflexivity | ].
      split; [ apply in_or_app; left; exact Hin | ].
      destruct (save_to_disk lib (save_preprocessed_data_path args)
                  [("train", tr); ("eval", ev)]); discriminate.
    + exists evs. eexists. split; [ reflexivity | ]. split; [ exact Hin | ].
      discriminate.
Qed.

(** Load path [cache.json], nothing to save: the cache is read from that
    path. Load path [cache], save path [old.json], no save requested: the
    legacy error. *)
Lemma legacy_check_inspects_save_path_witness :
  (exists evs r,
     _preprocess_data_train (Demo.lib Demo.cpu_only) Demo.happy_gen
       "train.txt" "" (Demo.make_args (1 # 2) false false "" true "cache.json")
       Demo.world0
     = (after Demo.world0 evs, r)
     /\ In (LoadFromDisk "cache.json") evs
     /\ (forall msg, r <> inl (ValueError msg)))
  /\ _preprocess_data_train (Demo.lib Demo.cpu_only) Demo.happy_gen
       "train.txt" "" (Demo.make_args (1 # 2) false false "old.json" true "cache")
       Demo.world0
     = (Demo.world0, inl (ValueError legacy_load_msg)).
Proof.
  split.
  - apply (legacy_check_inspects_save_path (Demo.lib Demo.cpu_only) Demo.happy_gen
             "train.txt" ""
             (Demo.make_args (1 # 2) false false "" true "cache.json")
             Demo.world0); reflexivity.
  - apply (legacy_check_inspects_save_path (Demo.lib Demo.cpu_only) Demo.happy_gen
             "train.txt" ""
             (Demo.make_args (1 # 2) false false "old.json" true "cache")
             Demo.world0); reflexivity.
Defined.

(** Past the legacy guard the cache takes precedence: for every call to
    [train] that requests loading of preprocessed data, supplies an eval
    file path and whose save path does not end in .json, the warning is
    emitted, no dataset file is read (no [load_dataset] call, no
    tokenization), any pair of partitions the preprocessing returns is the
    pair stored at the cache location, it does return that pair when the
    cache holds both partitions and the optional save succeeds, and
    [train] goes on to the run with that pair. *)
Lemma cache_precedence_past_guard
    (lib : Library) (self : Self) (input_filepath eval_filepath : string)
    (args : TrainArgs) (w : World) :
  load_preprocessed_data args = true ->
  eval_filepath <> "" ->
  PyStr.endswith (save_preprocessed_data_path args) ".json" = false ->
  exists evs r,
    _preprocess_data_train lib self input_filepath eval_filepath args w
      = (after w evs, r)
    /\ In (LogWarning (cache_warning args eval_filepath)) evs
    /\ (forall file_type data_files split,
          ~ In (LoadDataset file_type data_files split) evs)
    /\ (forall format, ~ In (CallTokFunction format) evs)
    /\ (forall tr ev,
          r = inr (tr, ev) ->
          exists d,
            load_from_disk lib (load_preprocessed_data_path args) = inr d
            /\ lookup d "train" = Some tr
            /\ lookup d "eval" = Some ev)
    /\ (forall d tr ev,
          load_from_disk lib (load_preprocessed_data_path args) = inr d ->
          lookup d "train" = Some tr ->
          lookup d "eval" = Some ev ->
          (save_preprocessed_data args = true ->
           exists u, save_to_disk lib (save_preprocessed_data_path args)
                       [("train", tr); ("eval", ev)] = inr u) ->
          r = inr (tr, ev))
    /\ train lib self input_filepath (ArgsObj args) eval_filepath w
       = match r with
         | inl e => (after w evs, inl e)
         | inr (tr, ev) =>
             _run_train lib self tr ev args (_data_collator self) (after w evs)
         end.
Proof.
  intros Hload Heval Hsave.
  assert (Hne : (eval_filepath =? "")%string = false)
    by (apply String.eqb_neq; exact Heval).
  rewrite train_unfold by (rewrite Hne; apply andb_false_r).
  rewrite (preprocess_cache_run lib self input_filepath eval_filepath args w
             Hload Hsave).
  cbv zeta. rewrite Hne. cbn [negb app].
  set (warn := LogWarning (cache_warning args eval_filepath)).
  set (load := LoadFromDisk (load_preprocessed_data_path args)).
  assert (Hnoload : forall extra,
            (forall ft df sp, LoadDataset ft df sp <> extra) ->
            forall ft df sp, ~ In (LoadDataset ft df sp) [warn; load; extra]).
  { intros extra Hx ft df sp [H | [H | [H | []]]];
      try discriminate H. exact (Hx ft df sp (eq_sym H)). }
  assert (Hnotok : forall extra,
            (forall f, CallTokFunction f <> extra) ->
            forall f, ~ In (CallTokFunction f) [warn; load; extra]).
  { intros extra Hx f [H | [H | [H | []]]];
      try discriminate H. exact (Hx f (eq_sym H)). }
  assert (Hnoload2 : forall ft df sp, ~ In (LoadDataset ft df sp) [warn; load]).
  { intros ft df sp [H | [H | []]]; discriminate H. }
  assert (Hnotok2 : forall f, ~ In (CallTokFunction f) [warn; load]).
  { intros f [H | [H | []]]; discriminate H. }
  destruct (load_from_disk lib (load_preprocessed_data_path args)) as [msg | d].
  { exists [warn; load]. eexists. split; [ reflexivity | ].
    repeat split; try assumption; try (left; reflexivity);
      try discriminate. }
  destruct (lookup d "train") as [tr | ] eqn:Htr.
  2:{ exists [warn; load]. eexists. split; [ reflexivity | ].
      repeat match goal with |- _ /\ _ => split end;
        try assumption; try (left; reflexivity); try discriminate;
        try reflexivity.
      intros d' tr' ev' Hd. inversion Hd; subst d'. congruence. }
  destruct (lookup d "eval") as [ev | ] eqn:Hev.
  2:{ exists [warn; load]. eexists. split; [ reflexivity | ].
      repeat match goal with |- _ /\ _ => split end;
        try assumption; try (left; reflexivity); try discriminate;
        try reflexivity.
      intros d' tr' ev' Hd. inversion Hd; subst d'. congruence. }
  destruct (save_preprocessed_data args) eqn:Hsv.
  - rewrite after_after. cbn [app].
    set (save := SaveToDisk (save_preprocessed_data_path args) ["train"; "eval"]).
    exists [warn; load; save]. eexists. split; [ reflexivity | ].
    repeat match goal with |- _ /\ _ => split end.
    + left; reflexivity.
    + apply Hnoload. discriminate.
    + apply Hnotok. discriminate.
    + intros tr' ev' Hr.
      destruct (save_to_disk lib (save_preprocessed_data_path args)
                  [("train", tr); ("eval", ev)]); inversion Hr; subst.
      exists d. auto.
    + intros d' tr' ev' Hd Htr' Hev' Hok. inversion Hd; subst d'.
      assert (tr' = tr) by congruence. assert (ev' = ev) by congruence. subst.
      destruct (Hok eq_refl) as [u Hu]. rewrite Hu. reflexivity.
    + reflexivity.
  - exists [warn; load]. eexists. split; [ reflexivity | ].
    repeat match goal with |- _ /\ _ => split end;
      try assumption; try (left; reflexivity); try reflexivity.
    + intros tr' ev' Hr. inversion Hr; subst. exists d. auto.
    + intros d' tr' ev' Hd Htr' Hev' _. inversion Hd; subst d'. congruence.
Qed.

(** C6 with cache loading requested, an eval path given, saving off and
    a save path left at a .json name: the guard of the load branch reads
    the save path, so the call ends in the legacy-format ValueError with
    the world untouched: no warning, no load, no partition. The same call
    with the save path empty emits the warning and returns the partitions
    of the cache, and so does every call whose save path passes the
    guard. *)
Theorem cache_precedence_lost_to_legacy_guard :
  let lib := Demo.lib Demo.cpu_only in
  let legacy := Demo.make_args (1 # 2) false false "old.json" true "cache" in
  let plain := Demo.make_args (1 # 2) false false "" true "cache" in
  load_preprocessed_data legacy = true
  /\ save_preprocessed_data legacy = false
  /\ train lib Demo.happy_gen "train.txt" (ArgsObj legacy) "eval.txt" Demo.world0
     = (Demo.world0, inl (ValueError legacy_load_msg))
  /\ _preprocess_data_train lib Demo.happy_gen "train.txt" "eval.txt" plain
       Demo.world0
     = (after Demo.world0
          [LogWarning "Eval data will be fetched from cache and not eval.txt";
           LoadFromDisk "cache"],
        inr ([[1]; [2]], [[3]]))
  /\ (forall lib1 self input_filepath eval_filepath args w,
        load_preprocessed_data args = true ->
        eval_filepath <> "" ->
        PyStr.endswith (save_preprocessed_data_path args) ".json" = false ->
        exists evs r,
          _preprocess_data_train lib1 self input_filepath eval_filepath args w
            = (after w evs, r)
          /\ In (LogWarning (cache_warning args eval_filepath)) evs
          /\ (forall file_type data_files split,
                ~ In (LoadDataset file_type data_files split) evs)
          /\ (forall tr ev,
                r = inr (tr, ev) ->
                exists d,
                  load_from_disk lib1 (load_preprocessed_data_path args) = inr d
                  /\ lookup d "eval" = Some ev)).
Proof.
  cbv zeta.
  repeat match goal with |- _ /\ _ => split end; try reflexivity.
  intros lib1 self input_filepath eval_filepath args w Hload Heval Hsave.
  destruct (cache_precedence_past_guard lib1 self input_filepath eval_filepath
              args w Hload Heval Hsave)
    as (evs & r & Hrun & Hwarn & Hnoload & _ & Hret & _).
  exists evs, r. repeat split; try assumption.
  intros tr ev Hr. destruct (Hret tr ev Hr) as (d & Hd & _ & Hev).
  exists d. auto.
Qed.

(** ** Tokenization in [HappyGeneration] *)

(** The base class calls [_tok_function] with three arguments; the method
    of [HappyGeneration] takes two, so the call stops at the arity check. *)
Lemma tok_call_generation {B : Type}
    (lib' : Library) (self : Self) (dataset : RawDataset) (args : PyVal)
    (format : string) (k : TokDataset -> M B) (w : World) :
  _tok_function self = HappyGeneration._tok_function lib' ->
  bind (tok_call self dataset args format) k w
    = (after w [CallTokFunction format], inl (TypeError arity_msg)).
Proof.
  intros Hm. unfold tok_call. mrun. rewrite Hm. reflexivity.
Qed.

(** Every instance [HappyGeneration.__init__] returns carries the
    two-parameter method, supports the string "text" and is of type gen. *)
Lemma generation_init_instance
    (lib : Library) (model_type model_name load_path : string) (w w' : World)
    (self : Self) :
  HappyGeneration.__init__ lib model_type model_name load_path w = (w', inr self) ->
  _tok_function self = HappyGeneration._tok_function lib
  /\ _t_data_file_type self = FTStr "text"
  /\ _type self = Some "gen".
Proof.
  unfold HappyGeneration.__init__, bind, ret. intros H.
  destruct (HappyTransformer.__init__ lib model_type model_name load_path w)
    as [w0 [e | base]]; inversion H; subst. repeat split.
Qed.

Lemma bind_check_file_type_run {B : Type}
    (self : Self) (file_path : string) (k : string -> M B) (w : World) :
  bind (_check_file_type self file_path) k w =
  match snd (_check_file_type self file_path w) with
  | inl e => (w, inl e)
  | inr ending => k ending w
  end.
Proof.
  unfold bind. rewrite check_file_type_run. cbn [snd].
  destruct (lookup ending_map (snd (OsPath.splitext file_path)));
    [ destruct (_t_data_file_type self) | ]; reflexivity.
Qed.

Ltac explore_with tac :=
  repeat first
    [ progress (mrun; cbn [app])
    | tac
    | match goal with
      | |- context [match ?x with inl _ => _ | inr _ => _ end] =>
          destruct x eqn:?
      | |- context [match lookup ?d ?key with _ => _ end] =>
          destruct (lookup d key) eqn:?
      end ].

Ltac explore := explore_with fail.

Ltac close_run :=
  first [ exists []; eexists; split; [ rewrite after_nil; reflexivity | ]
        | eexists; eexists; split; [ reflexivity | ] ].

(** C9: for an instance whose [_tok_function] is the one [HappyGeneration]
    defines, every run of [train] or [eval] that reaches the call to
    [_tok_function] ends in the arity TypeError, and no run on raw data
    (no cache loading) returns normally. *)
Theorem generation_tokenization_type_error
    (lib lib' : Library) (self : Self) (input_filepath eval_filepath : string)
    (w : World) :
  _tok_function self = HappyGeneration._tok_function lib' ->
  (forall args : PyArgs TrainArgs,
     exists evs r,
       HappyGeneration.train lib self input_filepath eval_filepath args w
         = (after w evs, r)
       /\ (forall format, In (CallTokFunction format) evs ->
           r = inl (TypeError arity_msg))
       /\ (forall a, args = ArgsObj a -> load_preprocessed_data a = false ->
           exists e, r = inl e))
  /\ (forall args : PyArgs EvalArgs,
       exists evs r,
         HappyGeneration.eval lib self input_filepath args w = (after w evs, r)
         /\ (forall format, In (CallTokFunction format) evs ->
             r = inl (TypeError arity_msg))
         /\ (forall a, args = ArgsObj a -> e_load_preprocessed_data a = false ->
             exists e, r = inl e)).
Proof.
  intros Hm. split.
  - intros [ | a].
    { unfold HappyGeneration.train, train. mrun. close_run.
      split; [ intros f [] | intros a Ha; discriminate Ha ]. }
    unfold HappyGeneration.train, train.
    destruct (Qle_bool (eval_ratio a) 0 && (eval_filepath =? "")%string).
    { mrun. close_run. split; [ intros f [] | eauto ]. }
    mrun. unfold _preprocess_data_train.
    destruct (load_preprocessed_data a) eqn:Hload; cbn [negb].
    + (* cached data: tokenization is never reached *)
      destruct (PyStr.endswith (save_preprocessed_data_path a) ".json").
      { mrun. close_run. split; [ intros f [] | ].
        intros a' Ha'. inversion Ha'; subst a'. congruence. }
      destruct (negb (eval_filepath =? "")%string);
        unfold _run_train, _get_training_args, set_mlm_probability;
        explore;
        repeat match goal with
               | |- context [if ?b then _ else _] => destruct b eqn:?; explore
               | |- context [match _data_collator self with _ => _ end] =>
                   destruct (_data_collator self); explore
               end;
        close_run;
        (split;
         [ intros f Hin; cbn in Hin;
           repeat match goal with
                  | H : _ \/ _ |- _ => destruct H as [H | H]
                  end; try discriminate; contradiction
         | intros a' Ha'; inversion Ha'; subst a'; congruence ]).
    + destruct (eval_filepath =? "")%string.
      * mrun; rewrite bind_check_file_type_run.
        destruct (snd (_check_file_type self input_filepath w)) as [e | ft].
        { close_run. split; [ intros f [] | eauto ]. }
        explore_with ltac:(rewrite (tok_call_generation lib' self) by exact Hm);
          close_run;
          (split;
           [ intros f Hin; cbn in Hin;
             repeat match goal with
                    | H : _ \/ _ |- _ => destruct H as [H | H]
                    end; try discriminate; try contradiction; reflexivity
           | eauto ]).
      * mrun; rewrite bind_check_file_type_run.
        destruct (snd (_check_file_type self input_filepath w)) as [e | ft].
        { close_run. split; [ intros f [] | eauto ]. }
        mrun; rewrite bind_check_file_type_run.
        destruct (snd (_check_file_type self input_filepath w)) as [e | ft'].
        { close_run. split; [ intros f [] | eauto ]. }
        destruct (negb (ft =? ft')%string).
        { mrun. close_run. split; [ intros f [] | eauto ]. }
        explore_with ltac:(rewrite (tok_call_generation lib' self) by exact Hm);
          close_run;
          (split;
           [ intros f Hin; cbn in Hin;
             repeat match goal with
                    | H : _ \/ _ |- _ => destruct H as [H | H]
                    end; try discriminate; try contradiction; reflexivity
           | eauto ]).
  - intros [ | a].
    { unfold HappyGeneration.eval, eval. mrun. close_run.
      split; [ intros f [] | intros a Ha; discriminate Ha ]. }
    unfold HappyGeneration.eval, eval, _preprocess_data_eval.
    destruct (e_load_preprocessed_data a) eqn:Hload; cbn [negb].
    + unfold _run_eval, _get_eval_args, set_mlm_probability.
      explore;
        repeat match goal with
               | |- context [if ?b then _ else _] => destruct b eqn:?; explore
               | |- context [match _data_collator self with _ => _ end] =>
                   destruct (_data_collator self); explore
               end;
        close_run;
        (split;
         [ intros f Hin; cbn in Hin;
           repeat match goal with
                  | H : _ \/ _ |- _ => destruct H as [H | H]
                  end; try discriminate; contradiction
         | intros a' Ha'; inversion Ha'; subst a'; congruence ]).
    + mrun. rewrite bind_check_file_type_run.
      destruct (snd (_check_file_type self input_filepath _)) as [e | ft].
      { close_run.
        split; [ intros f [H | []]; discriminate H | eauto ]. }
      explore_with ltac:(rewrite (tok_call_generation lib' self) by exact Hm);
        close_run;
        (split;
         [ intros f Hin; cbn in Hin;
           repeat match goal with
                  | H : _ \/ _ |- _ => destruct H as [H | H]
                  end; try discriminate; try contradiction; reflexivity
         | eauto ]).
Qed.

Lemma generation_tokenization_type_error_witness :
  exists evs,
    HappyGeneration.train (Demo.lib Demo.cpu_only) Demo.happy_gen "train.txt" ""
      (ArgsObj Demo.args) Demo.world0
    = (after Demo.world0 evs, inl (TypeError arity_msg))
    /\ In (CallTokFunction "text") evs.
Proof.
  destruct (generation_tokenization_type_error (Demo.lib Demo.cpu_only)
              (Demo.lib Demo.cpu_only) Demo.happy_gen "train.txt" ""
              Demo.world0 eq_refl) as [Htrain _].
  destruct (Htrain (ArgsObj Demo.args)) as (evs & r & Hrun & Htok & _).
  assert (Hevs : evs =
    [LoadDataset "text" [("train", "train.txt")] (Some "train"); Shuffle 42;
     TrainTestSplit (1 # 2) None; LogInfo "Tokenizing training data...";
     CallTokFunction "text"]).
  { vm_compute in Hrun. inversion Hrun. reflexivity. }
  exists evs. subst evs.
  assert (Hin : In (CallTokFunction "text")
    [LoadDataset "text" [("train", "train.txt")] (Some "train"); Shuffle 42;
     TrainTestSplit (1 # 2) None; LogInfo "Tokenizing training data...";
     CallTokFunction "text"]) by (cbn; tauto).
  split; [ | exact Hin ].
  rewrite Hrun. rewrite (Htok "text" Hin). reflexivity.
Defined.

(** A task that keeps the base signature gets past the call and into
    [preprocess_concatenate]. *)
Lemma tok_call_conforming {B : Type}
    (lib' : Library) (self : Self) (dataset : RawDataset) (a : TrainArgs)
    (format : string) (k : TokDataset -> M B) (w : World) :
  _tok_function self = Conforming._tok_function lib' ->
  bind (tok_call self dataset (VTrainArgs a) format) k w =
  match preprocess_concatenate lib' dataset (preprocessing_processes a) false with
  | inl msg =>
      (after w [CallTokFunction format;
                PreprocessConcatenate (preprocessing_processes a) false],
       inl (LibraryError msg))
  | inr tok =>
      k tok (after w [CallTokFunction format;
                      PreprocessConcatenate (preprocessing_processes a) false])
  end.
Proof.
  intros Hm. unfold tok_call. mrun. rewrite Hm.
  unfold call_method. cbn [length m_params Conforming._tok_function Nat.eqb m_body].
  unfold HappyGeneration.get_preprocessing_processes. mrun. cbn [app].
  reflexivity.
Qed.

(** ** The file-type comparison of the two-file branch *)

(** The comparison never fires: for the two task classes of this file, no
    run of [train] ends in the mismatch error, whatever the two paths. *)
Lemma mismatch_never_raised
    (lib lib' : Library) (self : Self) (input_filepath eval_filepath : string)
    (args : PyArgs TrainArgs) (w : World) :
  _tok_function self = HappyGeneration._tok_function lib'
  \/ _tok_function self = Conforming._tok_function lib' ->
  snd (train lib self input_filepath args eval_filepath w)
    <> inl (ValueError mismatch_msg).
Proof.
  intros Hm. destruct args as [ | a]; [ discriminate | ].
  unfold train.
  destruct (Qle_bool (eval_ratio a) 0 && (eval_filepath =? "")%string);
    [ discriminate | ].
  mrun. unfold _preprocess_data_train.
  destruct (load_preprocessed_data a); cbn [negb].
  - destruct (PyStr.endswith (save_preprocessed_data_path a) ".json");
      [ mrun; discriminate | ].
    destruct (negb (eval_filepath =? "")%string);
      unfold _run_train, _get_training_args, set_mlm_probability;
      explore;
      repeat match goal with
             | |- context [if ?b then _ else _] => destruct b eqn:?; explore
             | |- context [match _data_collator self with _ => _ end] =>
                 destruct (_data_collator self); explore
             end;
      cbn [snd]; unfold ret; try discriminate;
      match goal with
      | |- snd (match ?x with _ => _ end) <> _ => destruct x; discriminate
      end.
  - destruct (eval_filepath =? "")%string.
    + mrun; rewrite bind_check_file_type_run.
      destruct (snd (_check_file_type self input_filepath w)) as [e | ft] eqn:Hft.
      { rewrite check_file_type_run in Hft. cbn [snd] in *.
        destruct (lookup ending_map (snd (OsPath.splitext input_filepath)));
          [ destruct (_t_data_file_type self) | ]; inversion Hft; discriminate. }
      destruct Hm as [Hm | Hm].
      * explore_with ltac:(rewrite (tok_call_generation lib' self) by exact Hm);
          discriminate.
      * unfold _run_train, _get_training_args, set_mlm_probability.
        explore_with ltac:(rewrite (tok_call_conforming lib' self) by exact Hm);
          repeat match goal with
                 | |- context [if ?b then _ else _] =>
                     destruct b eqn:?;
                     explore_with
                       ltac:(rewrite (tok_call_conforming lib' self) by exact Hm)
                 | |- context [match _data_collator self with _ => _ end] =>
                     destruct (_data_collator self); explore
                 end;
          cbn [snd]; unfold ret; try discriminate;
          match goal with
          | |- snd (match ?x with _ => _ end) <> _ => destruct x; discriminate
          end.
    + mrun; rewrite bind_check_file_type_run.
      destruct (snd (_check_file_type self input_filepath w)) as [e | ft] eqn:Hft.
      { rewrite check_file_type_run in Hft. cbn [snd] in *.
        destruct (lookup ending_map (snd (OsPath.splitext input_filepath)));
          [ destruct (_t_data_file_type self) | ]; inversion Hft; discriminate. }
      cbn beta. mrun. rewrite bind_check_file_type_run, Hft.
      rewrite String.eqb_refl. cbn [negb].
      destruct Hm as [Hm | Hm].
      * explore_with ltac:(rewrite (tok_call_generation lib' self) by exact Hm);
          discriminate.
      * unfold _run_train, _get_training_args, set_mlm_probability.
        explore_with ltac:(rewrite (tok_call_conforming lib' self) by exact Hm);
          repeat match goal with
                 | |- context [if ?b then _ else _] =>
                     destruct b eqn:?;
                     explore_with
                       ltac:(rewrite (tok_call_conforming lib' self) by exact Hm)
                 | |- context [match _data_collator self with _ => _ end] =>
                     destruct (_data_collator self); explore
                 end;
          cbn [snd]; unfold ret; try discriminate;
          match goal with
          | |- snd (match ?x with _ => _ end) <> _ => destruct x; discriminate
          end.
Qed.

(** C1 at [train.txt] with [eval.csv]: the two paths resolve to different
    formats ("text" and "csv"), yet no mismatch error is raised. The eval
    format is resolved from the train path, both files go to
    [load_dataset] under the train format, and a task that keeps the base
    signature trains on the result; with [HappyGeneration] the run gets as
    far as the tokenization call. For the task classes of this file no
    run of [train] ends in the mismatch error at all. *)
Theorem file_type_mismatch_not_detected :
  let lib := Demo.lib Demo.cpu_only in
  let conforming := Conforming.instance lib cpu (FTStr "text") in
  let both := LoadDataset "text" [("train", "train.txt"); ("eval", "eval.csv")] None in
  snd (_check_file_type Demo.happy_gen "train.txt" Demo.world0) = inr "text"
  /\ snd (_check_file_type Demo.happy_gen "eval.csv" Demo.world0) = inr "csv"
  /\ HappyGeneration.train lib Demo.happy_gen "train.txt" "eval.csv"
       (ArgsObj Demo.args) Demo.world0
     = (after Demo.world0
          [both; LogInfo "Tokenizing training data..."; CallTokFunction "text"],
        inl (TypeError arity_msg))
  /\ _preprocess_data_train lib conforming "train.txt" "eval.csv" Demo.args
       Demo.world0
     = (after Demo.world0
          [both; LogInfo "Tokenizing training data..."; CallTokFunction "text";
           PreprocessConcatenate 1 false; LogInfo "Tokenizing eval data...";
           CallTokFunction "text"; PreprocessConcatenate 1 false],
        inr ([[1]; [2]], [[3]]))
  /\ snd (train lib conforming "train.txt" (ArgsObj Demo.args) "eval.csv"
            Demo.world0) = inr tt
  /\ (forall lib1 lib2 self input_filepath eval_filepath args w,
        _tok_function self = HappyGeneration._tok_function lib2
        \/ _tok_function self = Conforming._tok_function lib2 ->
        snd (train lib1 self input_filepath args eval_filepath w)
          <> inl (ValueError mismatch_msg)).
Proof.
  cbv zeta.
  repeat match goal with |- _ /\ _ => split end; try reflexivity.
  intros lib1 lib2 self input_filepath eval_filepath args w Hm.
  exact (mismatch_never_raised lib1 lib2 self input_filepath eval_filepath args w Hm).
Qed.

(** ** fp16 without CUDA *)

(** C2 on the CPU with [fp16] set: nothing is rejected. With cached data
    [HappyGeneration.train] loads the cache, builds a configuration with
    [fp16] on and starts the trainer; on a raw file, a task that keeps the
    base signature loads, splits and tokenizes the data before the
    configuration is even built, and trains as well. For no library,
    instance, arguments and world does [_get_training_args] raise a
    ValueError. *)
Theorem fp16_without_cuda_not_rejected :
  let lib := Demo.lib Demo.cpu_only in
  let conforming := Conforming.instance lib cpu (FTStr "text") in
  let cached := Demo.make_args (1 # 2) true false "" true "cache" in
  let raw := Demo.make_args (1 # 2) true false "" false "" in
  device_type (device Demo.happy_gen) = "cpu"
  /\ fp16 cached = true
  /\ fp16 raw = true
  /\ HappyGeneration.train lib Demo.happy_gen "train.txt" "" (ArgsObj cached)
       Demo.world0
     = (after Demo.world0
          [LoadFromDisk "cache";
           NewTrainingArguments (training_kwargs Demo.happy_gen cached);
           SetEnviron "WANDB_PROJECT" "happy-transformer";
           TrainerTrain false (training_kwargs Demo.happy_gen cached)
             [[1]; [2]] [[3]]],
        inr tt)
  /\ ta_fp16 (training_kwargs Demo.happy_gen cached) = true
  /\ train lib conforming "train.txt" (ArgsObj raw) "" Demo.world0
     = (after Demo.world0
          [LoadDataset "text" [("train", "train.txt")] (Some "train");
           Shuffle 42; TrainTestSplit (1 # 2) None;
           LogInfo "Tokenizing training data...";
           CallTokFunction "text"; PreprocessConcatenate 1 false;
           CallTokFunction "text"; PreprocessConcatenate 1 false;
           NewTrainingArguments (training_kwargs conforming raw);
           SetEnviron "WANDB_PROJECT" "happy-transformer";
           TrainerTrain false (training_kwargs conforming raw) [[2]] [[1]]],
        inr tt)
  /\ (forall lib1 self args w msg,
        snd (_get_training_args lib1 self args w) <> inl (ValueError msg)).
Proof.
  cbv zeta.
  repeat match goal with |- _ /\ _ => split end; try reflexivity.
  intros lib1 self args w msg. rewrite get_training_args_run. cbn [snd].
  destruct (training_arguments_init lib1 (training_kwargs self args));
    discriminate.
Qed.

(** ** The shuffle and the split *)

(** C3 on the two-row file [train.txt] with [eval_ratio = 1/2]: the
    shuffle is called with seed 42, the split with no seed, and two runs
    that differ only in the state of the global generator return
    different partitions. *)
Theorem split_not_reproducible :
  let lib := Demo.lib Demo.cpu_only in
  let conforming := Conforming.instance lib cpu (FTStr "text") in
  let events :=
    [LoadDataset "text" [("train", "train.txt")] (Some "train");
     Shuffle 42; TrainTestSplit (1 # 2) None;
     LogInfo "Tokenizing training data...";
     CallTokFunction "text"; PreprocessConcatenate 1 false;
     CallTokFunction "text"; PreprocessConcatenate 1 false] in
  trace Demo.world0 = trace Demo.world1
  /\ _preprocess_data_train lib conforming "train.txt" "" Demo.args Demo.world0
     = (after Demo.world0 events, inr ([[2]], [[1]]))
  /\ _preprocess_data_train lib conforming "train.txt" "" Demo.args Demo.world1
     = (after Demo.world1 events, inr ([[1]], [[2]])).
Proof. cbv zeta. repeat split. Qed.

(** What does hold for the single-file branch: for a task that keeps the
    base signature, two runs that start with the global generator in the
    same state return the same partitions. *)
Lemma split_same_generator_same_partitions
    (lib lib' : Library) (self : Self) (input_filepath : string) (args : TrainArgs)
    (w1 w2 : World) :
  _tok_function self = Conforming._tok_function lib' ->
  np_random w1 = np_random w2 ->
  snd (_preprocess_data_train lib self input_filepath "" args w1)
  = snd (_preprocess_data_train lib self input_filepath "" args w2).
Proof.
  intros Hm Hnp.
  destruct (load_preprocessed_data args) eqn:Hload.
  - destruct (PyStr.endswith (save_preprocessed_data_path args) ".json") eqn:Hj.
    + unfold _preprocess_data_train. rewrite Hload, Hj. cbn [negb]. mrun.
      reflexivity.
    + rewrite !(preprocess_cache_run lib self input_filepath "" args _ Hload Hj).
      cbv zeta.
      destruct (load_from_disk lib (load_preprocessed_data_path args));
        [ reflexivity | ].
      destruct (lookup d "train"); [ | reflexivity ].
      destruct (lookup d "eval"); [ | reflexivity ].
      destruct (save_preprocessed_data args); reflexivity.
  - unfold _preprocess_data_train. rewrite Hload. cbn [negb String.eqb].
    mrun. rewrite !bind_check_file_type_run.
    rewrite !check_file_type_run. cbn [snd].
    destruct (lookup ending_map (snd (OsPath.splitext input_filepath)));
      [ | reflexivity ].
    destruct (_t_data_file_type self); [ reflexivity | | ];
      explore_with
        ltac:(first [ rewrite Hnp
                    | rewrite (tok_call_conforming lib' self) by exact Hm ]);
      try reflexivity;
      repeat match goal with
             | |- context [if ?b then _ else _] =>
                 destruct b eqn:?;
                 explore_with
                   ltac:(rewrite (tok_call_conforming lib' self) by exact Hm)
             end;
      reflexivity.
Qed.

(** * Further properties *)

(** ** Slices and searches *)

Lemma length_append (s1 s2 : string) :
  String.length (s1 ++ s2) = (String.length s1 + String.length s2)%nat.
Proof. induction s1 as [ | c s1 IH]; cbn; [ reflexivity | now rewrite IH ]. Qed.

Lemma append_empty_r (s : string) : s ++ "" = s.
Proof. induction s as [ | c s IH]; cbn; [ reflexivity | now rewrite IH ]. Qed.

Lemma append_assoc (s1 s2 s3 : string) : (s1 ++ s2) ++ s3 = s1 ++ (s2 ++ s3).
Proof. induction s1 as [ | c s1 IH]; cbn; [ reflexivity | now rewrite IH ]. Qed.

Lemma substring_0_0 (s : string) : substring 0 0 s = "".
Proof. destruct s; reflexivity. Qed.

Lemma substring_0_length (s : string) : substring 0 (String.length s) s = s.
Proof. induction s as [ | c s IH]; cbn; [ reflexivity | now rewrite IH ]. Qed.

Lemma substring_0_append (s1 s2 : string) :
  substring 0 (String.length s1) (s1 ++ s2) = s1.
Proof.
  induction s1 as [ | c s1 IH]; cbn; [ apply substring_0_0 | now rewrite IH ].
Qed.

Lemma substring_skip_append (s1 s2 : string) (m : nat) :
  substring (String.length s1) m (s1 ++ s2) = substring 0 m s2.
Proof. induction s1 as [ | c s1 IH]; cbn; [ reflexivity | exact IH ]. Qed.

(** Cutting a string in two at any index within it and gluing the two
    slices gives the string back. *)
Lemma substring_split (n : nat) (s : string) :
  (n <= String.length s)%nat ->
  substring 0 n s ++ substring n (String.length s - n) s = s.
Proof.
  revert s. induction n as [ | n IH]; intros s Hn.
  - rewrite substring_0_0, Nat.sub_0_r, substring_0_length. reflexivity.
  - destruct s as [ | c s]; cbn in Hn; [ lia | ].
    cbn. rewrite IH by lia. reflexivity.
Qed.

Lemma endswith_append (s suffix : string) : PyStr.endswith (s ++ suffix) suffix = true.
Proof.
  unfold PyStr.endswith. rewrite length_append.
  replace (String.length s + String.length suffix - String.length suffix)%nat
    with (String.length s) by lia.
  rewrite substring_skip_append, substring_0_length, String.eqb_refl.
  rewrite andb_true_r. apply Nat.leb_le. lia.
Qed.

(** [rfind] answers [-1] or an index inside the part it scanned. *)
Lemma rfind_from_range (c : ascii) (s : string) (i : Z) :
  PyStr.rfind_from c s i = -1
  \/ i <= PyStr.rfind_from c s i < i + Z.of_nat (String.length s).
Proof.
  revert i. induction s as [ | a s IH]; intros i; cbn [PyStr.rfind_from].
  - left. reflexivity.
  - cbv zeta. destruct (IH (i + 1)) as [H | H].
    + rewrite H. cbn [Z.leb Z.compare].
      destruct (Ascii.eqb a c); [ right | left; reflexivity ].
      cbn [String.length]. lia.
    + destruct (Z.leb_spec 0 (PyStr.rfind_from c s (i + 1))).
      * right. cbn [String.length]. lia.
      * destruct (Ascii.eqb a c); [ right | left; reflexivity ].
        cbn [String.length]. lia.
Qed.

Lemma rfind_from_negative (c : ascii) (s : string) (i : Z) :
  0 <= i -> (0 <=? PyStr.rfind_from c s i) = false -> PyStr.rfind_from c s i = -1.
Proof.
  intros Hi H. apply Z.leb_gt in H.
  destruct (rfind_from_range c s i) as [Hr | Hr]; [ exact Hr | lia ].
Qed.

(** Searching a concatenation: the right part wins when it holds the
    character, the left part is searched otherwise. *)
Lemma rfind_from_append (c : ascii) (s1 s2 : string) (i : Z) :
  0 <= i ->
  PyStr.rfind_from c (s1 ++ s2) i =
  if 0 <=? PyStr.rfind_from c s2 (i + Z.of_nat (String.length s1))
  then PyStr.rfind_from c s2 (i + Z.of_nat (String.length s1))
  else PyStr.rfind_from c s1 i.
Proof.
  revert i. induction s1 as [ | a s1 IH]; intros i Hi.
  - cbn [append String.length Z.of_nat PyStr.rfind_from]. rewrite Z.add_0_r.
    destruct (0 <=? PyStr.rfind_from c s2 i) eqn:E; [ reflexivity | ].
    apply rfind_from_negative; assumption.
  - cbn [append PyStr.rfind_from]. cbv zeta.
    rewrite IH by lia.
    replace (i + 1 + Z.of_nat (String.length s1))
      with (i + Z.of_nat (String.length (String a s1)))
      by (cbn [String.length]; lia).
    destruct (0 <=? PyStr.rfind_from c s2
                      (i + Z.of_nat (String.length (String a s1)))) eqn:E.
    + rewrite E. reflexivity.
    + reflexivity.
Qed.

Lemma slice_char (s1 s2 : string) (c : ascii) :
  PyStr.slice (s1 ++ String c s2) (Z.of_nat (String.length s1))
    (Z.of_nat (String.length s1) + 1)
  = String c "".
Proof.
  unfold PyStr.slice. rewrite Nat2Z.id.
  replace (Z.to_nat (Z.of_nat (String.length s1) + 1 - Z.of_nat (String.length s1)))
    with 1%nat by lia.
  rewrite substring_skip_append. cbn. rewrite substring_0_0. reflexivity.
Qed.

(** The loop over the leading dots stops with [true] as soon as one
    character of its range is not a dot. *)
Lemma skip_leading_dots_found (p : string) (i j : Z) (n : nat) :
  i <= j < i + Z.of_nat n ->
  PyStr.slice p j (j + 1) <> "." ->
  OsPath.skip_leading_dots p i n = true.
Proof.
  revert i. induction n as [ | n IH]; intros i Hj Hc; [ lia | ].
  cbn [OsPath.skip_leading_dots].
  destruct (String.eqb_spec (PyStr.slice p i (i + 1)) (String OsPath.extsep ""))
    as [Heq | Hne]; cbn [negb]; [ | reflexivity ].
  apply IH; [ | exact Hc ].
  assert (j <> i) by (intros ->; exact (Hc Heq)). lia.
Qed.

(** [root + ext == path] *)
Lemma splitext_join (p : string) :
  fst (OsPath.splitext p) ++ snd (OsPath.splitext p) = p.
Proof.
  unfold OsPath.splitext.
  destruct ((PyStr.rfind p OsPath.sep <? PyStr.rfind p OsPath.extsep)
            && OsPath.skip_leading_dots p (PyStr.rfind p OsPath.sep + 1)
                 (Z.to_nat (PyStr.rfind p OsPath.extsep
                            - (PyStr.rfind p OsPath.sep + 1)))) eqn:E.
  - apply andb_true_iff in E. destruct E as [Hlt _]. apply Z.ltb_lt in Hlt.
    unfold PyStr.rfind in *.
    destruct (rfind_from_range OsPath.sep p 0) as [Hs | Hs];
      destruct (rfind_from_range OsPath.extsep p 0) as [Hd | Hd]; try lia;
      cbn [fst snd]; unfold PyStr.slice_to, PyStr.slice_from, PyStr.slice, PyStr.len;
      rewrite Z.sub_0_r;
      replace (Z.to_nat (Z.of_nat (String.length p) - PyStr.rfind_from OsPath.extsep p 0))
        with (String.length p - Z.to_nat (PyStr.rfind_from OsPath.extsep p 0))%nat
        by lia;
      apply substring_split; lia.
  - cbn [fst snd]. unfold PyStr.slice_to, PyStr.slice. cbn.
    rewrite substring_0_0. apply append_empty_r.
Qed.

(** A file name that ends in a character other than a dot or a slash,
    followed by an extension that starts with its only dot and holds no
    slash: the split is at that dot. *)
Lemma splitext_named (stem ext : string) (c : ascii) :
  c <> "."%char -> c <> "/"%char ->
  (forall j, PyStr.rfind_from "." ext j = j) ->
  (forall j, PyStr.rfind_from "/" ext j = -1) ->
  OsPath.splitext (stem ++ String c ext) = (stem ++ String c "", ext).
Proof.
  intros Hdot Hsep Hext_dot Hext_sep.
  assert (Hp : stem ++ String c ext = (stem ++ String c "") ++ ext)
    by (rewrite append_assoc; reflexivity).
  assert (Hlen : String.length (stem ++ String c "") = S (String.length stem))
    by (rewrite length_append; cbn; lia).
  assert (Hd : PyStr.rfind (stem ++ String c ext) OsPath.extsep
               = Z.of_nat (S (String.length stem))).
  { unfold PyStr.rfind, OsPath.extsep. rewrite Hp, rfind_from_append by lia.
    rewrite Hext_dot, Hlen.
    destruct (Z.leb_spec 0 (0 + Z.of_nat (S (String.length stem)))); lia. }
  assert (Hs : PyStr.rfind (stem ++ String c ext) OsPath.sep
               = PyStr.rfind_from "/" stem 0).
  { unfold PyStr.rfind, OsPath.sep. rewrite Hp, rfind_from_append by lia.
    rewrite Hext_sep. cbn [Z.leb Z.compare].
    rewrite rfind_from_append by lia.
    cbn [PyStr.rfind_from]. cbv zeta. cbn [Z.leb Z.compare].
    destruct (Ascii.eqb_spec c "/"); [ contradiction | ]. reflexivity. }
  unfold OsPath.splitext. rewrite Hd, Hs.
  assert (Hrange : PyStr.rfind_from "/" stem 0 < Z.of_nat (String.length stem)).
  { destruct (rfind_from_range "/" stem 0); lia. }
  assert (Hlow : -1 <= PyStr.rfind_from "/" stem 0).
  { destruct (rfind_from_range "/" stem 0); lia. }
  replace (PyStr.rfind_from "/" stem 0 <? Z.of_nat (S (String.length stem)))
    with true by (symmetry; apply Z.ltb_lt; lia).
  rewrite (skip_leading_dots_found _ _ (Z.of_nat (String.length stem))).
  - cbn [andb]. unfold PyStr.slice_to, PyStr.slice_from, PyStr.slice, PyStr.len.
    rewrite Z.sub_0_r, Nat2Z.id, Hp, <- Hlen.
    rewrite substring_0_append.
    replace (Z.to_nat (Z.of_nat (String.length ((stem ++ String c "") ++ ext))
                       - Z.of_nat (String.length (stem ++ String c ""))))
      with (String.length ext) by (rewrite length_append; lia).
    rewrite substring_skip_append, substring_0_length. reflexivity.
  - lia.
  - rewrite slice_char. intros H. inversion H. contradiction.
Qed.

(** A file name that is nothing but the extension (a hidden file): no
    extension is split off. *)
Lemma splitext_bare (dir ext : string) :
  dir = "" \/ (exists d, dir = d ++ "/") ->
  (forall j, PyStr.rfind_from "." ext j = j) ->
  (forall j, PyStr.rfind_from "/" ext j = -1) ->
  OsPath.splitext (dir ++ ext) = (dir ++ ext, "").
Proof.
  intros Hdir Hext_dot Hext_sep.
  assert (Hd : PyStr.rfind (dir ++ ext) OsPath.extsep
               = Z.of_nat (String.length dir)).
  { unfold PyStr.rfind, OsPath.extsep. rewrite rfind_from_append by lia.
    rewrite Hext_dot.
    destruct (Z.leb_spec 0 (0 + Z.of_nat (String.length dir))); lia. }
  assert (Hs : PyStr.rfind (dir ++ ext) OsPath.sep + 1
               = Z.of_nat (String.length dir)).
  { unfold PyStr.rfind, OsPath.sep. rewrite rfind_from_append by lia.
    rewrite Hext_sep. cbn [Z.leb Z.compare].
    destruct Hdir as [-> | [d ->]]; [ reflexivity | ].
    rewrite rfind_from_append by lia.
    cbn [PyStr.rfind_from]. cbv zeta. cbn [Z.leb Z.compare Ascii.eqb Bool.eqb].
    rewrite length_append. cbn [String.length].
    destruct (Z.leb_spec 0 (0 + Z.of_nat (String.length d))); lia. }
  unfold OsPath.splitext. rewrite Hs, Hd, Z.sub_diag.
  cbn [Z.to_nat OsPath.skip_leading_dots]. rewrite andb_false_r.
  unfold PyStr.slice_to, PyStr.slice. cbn. rewrite substring_0_0. reflexivity.
Qed.

(** ** More on the file-type resolver *)

(** X1: whenever the resolver returns a format, it left the world as it
    was, and the format is "text" for a path that ends in .txt or "csv"
    for a path that ends in .csv; it returns nothing else. *)
Theorem check_file_type_sound
    (self : Self) (file_path : string) (w w' : World) (ending : string) :
  _check_file_type self file_path w = (w', inr ending) ->
  w' = w
  /\ ((ending = "text" /\ PyStr.endswith file_path ".txt" = true)
      \/ (ending = "csv" /\ PyStr.endswith file_path ".csv" = true)).
Proof.
  intros H. rewrite check_file_type_run in H.
  pose proof (f_equal fst H) as Hw. pose proof (f_equal snd H) as Hr.
  cbn [fst snd] in Hw, Hr. split; [ symmetry; exact Hw | ]. clear H Hw.
  pose proof (splitext_join file_path) as Hjoin.
  unfold ending_map in Hr. cbn [lookup] in Hr.
  destruct (String.eqb_spec ".txt" (snd (OsPath.splitext file_path))) as [Ht | _].
  - left. rewrite <- Ht in Hjoin. rewrite <- Hjoin.
    split; [ | apply endswith_append ].
    destruct (_t_data_file_type self); congruence.
  - destruct (String.eqb_spec ".csv" (snd (OsPath.splitext file_path)))
      as [Hc | _]; [ | discriminate ].
    right. rewrite <- Hc in Hjoin. rewrite <- Hjoin.
    split; [ | apply endswith_append ].
    destruct (_t_data_file_type self); congruence.
Qed.

Lemma check_file_type_sound_witness :
  PyStr.endswith "data/train.txt" ".txt" = true
  \/ PyStr.endswith "data/train.txt" ".csv" = true.
Proof.
  destruct (check_file_type_sound Demo.happy_gen "data/train.txt"
              Demo.world0 Demo.world0 "text" eq_refl) as [_ [[_ H] | [_ H]]].
  - left. exact H.
  - right. exact H.
Defined.

(** X2: a path whose file name ends in a character other than a dot or
    a slash, followed by .txt (by .csv), resolves to "text" (to "csv") on
    every instance that has its supported formats set, whatever they are
    and whatever directories the path goes through. *)
Theorem check_file_type_named_file
    (self : Self) (stem : string) (c : ascii) (w : World) :
  c <> "."%char -> c <> "/"%char ->
  _t_data_file_type self <> FTNone ->
  _check_file_type self (stem ++ String c ".txt") w = (w, inr "text")
  /\ _check_file_type self (stem ++ String c ".csv") w = (w, inr "csv").
Proof.
  intros Hdot Hsep Hft.
  assert (Htxt : OsPath.splitext (stem ++ String c ".txt")
                 = (stem ++ String c "", ".txt"))
    by (apply splitext_named; auto).
  assert (Hcsv : OsPath.splitext (stem ++ String c ".csv")
                 = (stem ++ String c "", ".csv"))
    by (apply splitext_named; auto).
  split.
  - apply (check_file_type_supported self _ w Hft). rewrite Htxt. reflexivity.
  - apply (check_file_type_supported self _ w Hft). rewrite Hcsv. reflexivity.
Qed.

Lemma check_file_type_named_file_witness :
  _check_file_type Demo.happy_gen "my.data/v1.2/train.txt" Demo.world0
  = (Demo.world0, inr "text").
Proof.
  apply (check_file_type_named_file Demo.happy_gen "my.data/v1.2/trai" "n"
           Demo.world0); discriminate.
Defined.

(** X3: a file named just .txt or .csv, at the top or inside any
    directory, has no extension for the resolver: the table lookup fails
    with a KeyError on the empty string, on every instance. *)
Theorem check_file_type_bare_extension
    (self : Self) (dir : string) (w : World) :
  dir = "" \/ (exists d, dir = d ++ "/") ->
  _check_file_type self (dir ++ ".txt") w = (w, inl (KeyError ""))
  /\ _check_file_type self (dir ++ ".csv") w = (w, inl (KeyError "")).
Proof.
  intros Hdir.
  assert (Htxt : OsPath.splitext (dir ++ ".txt") = (dir ++ ".txt", ""))
    by (apply splitext_bare; auto).
  assert (Hcsv : OsPath.splitext (dir ++ ".csv") = (dir ++ ".csv", ""))
    by (apply splitext_bare; auto).
  split; rewrite check_file_type_run; [ rewrite Htxt | rewrite Hcsv ]; reflexivity.
Qed.

Lemma check_file_type_bare_extension_witness :
  _check_file_type Demo.happy_gen "data/.txt" Demo.world0
  = (Demo.world0, inl (KeyError "")).
Proof.
  apply (check_file_type_bare_extension Demo.happy_gen "data/" Demo.world0).
  right. exists "data". reflexivity.
Defined.

(** ** Construction *)

(** The whole of [__init__]: one load, then the device, the log line, the
    pad token and the resize. *)
Lemma init_run (lib : Library) (model_type model_name load_path : string)
    (w : World) :
  __init__ lib model_type model_name load_path w =
  let path := if negb (load_path =? "")%string then load_path else model_name in
  let d :=
    if cuda_is_available (torch lib) then cuda 0
    else if mps_is_available (torch lib) && mps_is_built (torch lib) then mps
    else cpu in
  match from_pretrained lib path with
  | inl msg => (after w [FromPretrained path], inl (LibraryError msg))
  | inr tok =>
      let tok' :=
        match pad_token tok, eos_token tok with
        | None, Some eos =>
            {| pad_token := Some eos;
               eos_token := eos_token tok;
               tokenizer_len := tokenizer_len tok |}
        | _, _ => tok
        end in
      (after w [FromPretrained path; ModelTo d;
                LogInfo ("Using device: " ++ device_str d);
                ResizeTokenEmbeddings (tokenizer_len tok')],
       inr (Build_Self model_type model_name tok' d None FTNone None
              (_tok_function_base)))
  end.
Proof.
  cbv zeta. unfold __init__, _get_model_components, to_auto_device.
  destruct (negb (load_path =? "")%string); mrun;
    match goal with
    | |- context [from_pretrained lib ?p] => destruct (from_pretrained lib p)
    end; try reflexivity; mrun; cbn [app];
    destruct (mps_is_available (torch lib)), (mps_is_built (torch lib)),
      (cuda_is_available (torch lib)); reflexivity.
Qed.

(** X4: an instance that [__init__] returns has a pad token whenever the
    loaded tokenizer has a pad or an end-of-sequence token: a pad token
    that was there is kept, a missing one becomes the end-of-sequence
    token; the end-of-sequence token and the size are the loaded ones, and
    the embeddings are resized to that size. *)
Theorem init_tokenizer_padding
    (lib : Library) (model_type model_name load_path : string) (w w' : World)
    (self : Self) :
  __init__ lib model_type model_name load_path w = (w', inr self) ->
  exists tok,
    from_pretrained lib
      (if negb (load_path =? "")%string then load_path else model_name) = inr tok
    /\ pad_token (tokenizer self)
       = match pad_token tok with
         | Some p => Some p
         | None => eos_token tok
         end
    /\ eos_token (tokenizer self) = eos_token tok
    /\ tokenizer_len (tokenizer self) = tokenizer_len tok
    /\ (pad_token (tokenizer self) = None -> eos_token (tokenizer self) = None)
    /\ In (ResizeTokenEmbeddings (tokenizer_len tok)) (trace w').
Proof.
  rewrite init_run. cbv zeta. intros H.
  destruct (from_pretrained lib
              (if negb (load_path =? "")%string then load_path else model_name))
    as [msg | tok]; [ discriminate | ].
  exists tok. split; [ reflexivity | ].
  pose proof (f_equal fst H) as Hw. pose proof (f_equal snd H) as Hs.
  cbn [fst snd] in Hw, Hs. injection Hs as Hs. subst self w'. cbn [tokenizer].
  destruct (pad_token tok) as [p | ] eqn:Hp, (eos_token tok) as [e | ] eqn:He;
    cbn [pad_token eos_token tokenizer_len]; rewrite ?Hp, ?He;
    repeat split; try reflexivity; try discriminate;
    cbn [trace after]; rewrite in_app_iff; right; cbn; tauto.
Qed.

Lemma init_tokenizer_padding_witness :
  exists w' self,
    __init__ (Demo.lib Demo.cpu_only) "GPT2" "gpt2" "" Demo.world0 = (w', inr self)
    /\ pad_token (tokenizer self) = Some "<eos>".
Proof.
  destruct (__init__ (Demo.lib Demo.cpu_only) "GPT2" "gpt2" "" Demo.world0)
    as [w' [e | self]] eqn:Hrun; [ vm_compute in Hrun; discriminate Hrun | ].
  exists w', self. split; [ reflexivity | ].
  destruct (init_tokenizer_padding (Demo.lib Demo.cpu_only) "GPT2" "gpt2" ""
              Demo.world0 w' self Hrun) as (tok & Htok & Hpad & _).
  rewrite Hpad. cbn in Htok. injection Htok as <-. reflexivity.
Defined.

(** X5: [__init__] loads the components once, from [load_path] when it
    is not empty and from [model_name] otherwise, never from both; when
    that load fails, the failure is the outcome and no device was chosen,
    no model moved. *)
Theorem init_loads_once
    (lib : Library) (model_type model_name load_path : string) (w : World) :
  exists rest r,
    __init__ lib model_type model_name load_path w
      = (after w
           (FromPretrained
              (if negb (load_path =? "")%string then load_path else model_name)
            :: rest), r)
    /\ (forall path, ~ In (FromPretrained path) rest)
    /\ (forall msg,
          from_pretrained lib
            (if negb (load_path =? "")%string then load_path else model_name)
          = inl msg ->
          r = inl (LibraryError msg) /\ rest = [])
    /\ (forall self, r = inr self ->
          exists tok,
            from_pretrained lib
              (if negb (load_path =? "")%string then load_path else model_name)
            = inr tok).
Proof.
  rewrite init_run. cbv zeta.
  destruct (from_pretrained lib
              (if negb (load_path =? "")%string then load_path else model_name))
    as [msg | tok].
  - exists []. eexists. split; [ reflexivity | ].
    split; [ intros path [] | ].
    split; [ intros msg' H; injection H as <-; split; reflexivity | ].
    intros self H. discriminate H.
  - eexists. eexists. split; [ reflexivity | ].
    split.
    { intros path [H | [H | [H | []]]]; discriminate H. }
    split; [ intros msg H; discriminate H | ].
    intros self _. exists tok. reflexivity.
Qed.

(** X6: an instance of the base class alone (no task class has set the
    supported formats) cannot train on raw data: with cache loading off,
    [train] ends in the eval-ratio ValueError, in the KeyError of an
    unknown extension or in the TypeError of the membership test on None,
    and the world is untouched: nothing was loaded. *)
Theorem base_instance_cannot_preprocess
    (lib0 lib : Library) (model_type model_name load_path : string)
    (w0 w1 : World) (self : Self)
    (input_filepath eval_filepath : string) (args : TrainArgs) (w : World) :
  __init__ lib0 model_type model_name load_path w0 = (w1, inr self) ->
  load_preprocessed_data args = false ->
  exists e,
    train lib self input_filepath (ArgsObj args) eval_filepath w = (w, inl e)
    /\ (e = ValueError eval_ratio_msg
        \/ e = KeyError (snd (OsPath.splitext input_filepath))
        \/ e = TypeError "argument of type 'NoneType' is not iterable").
Proof.
  rewrite init_run. cbv zeta. intros Hinit Hload.
  destruct (from_pretrained lib0
              (if negb (load_path =? "")%string then load_path else model_name))
    as [msg | tok]; [ discriminate | ].
  pose proof (f_equal snd Hinit) as Hs. cbn [snd] in Hs. injection Hs as Hs.
  assert (Hft : _t_data_file_type self = FTNone) by (subst self; reflexivity).
  clear Hinit Hs.
  unfold train.
  destruct (Qle_bool (eval_ratio args) 0 && (eval_filepath =? "")%string).
  { mrun. eexists. split; [ reflexivity | ]. left. reflexivity. }
  mrun. unfold _preprocess_data_train. rewrite Hload. cbn [negb].
  destruct (eval_filepath =? "")%string; mrun;
    rewrite bind_check_file_type_run, check_file_type_run, Hft; cbn [snd];
    destruct (lookup ending_map (snd (OsPath.splitext input_filepath)));
    eexists; (split; [ reflexivity | ]); tauto.
Qed.

Lemma base_instance_cannot_preprocess_witness :
  exists w1 self e,
    __init__ (Demo.lib Demo.cpu_only) "GPT2" "gpt2" "" Demo.world0 = (w1, inr self)
    /\ train (Demo.lib Demo.cpu_only) self "train.txt" (ArgsObj Demo.args) ""
         Demo.world0
       = (Demo.world0, inl e).
Proof.
  destruct (__init__ (Demo.lib Demo.cpu_only) "GPT2" "gpt2" "" Demo.world0)
    as [w1 [e | self]] eqn:Hinit; [ vm_compute in Hinit; discriminate Hinit | ].
  destruct (base_instance_cannot_preprocess (Demo.lib Demo.cpu_only)
              (Demo.lib Demo.cpu_only) "GPT2" "gpt2" "" Demo.world0 w1 self
              "train.txt" "" Demo.args Demo.world0 Hinit eq_refl)
    as (e & Hrun & _).
  exists w1, self, e. split; [ reflexivity | exact Hrun ].
Defined.

(** ** The training run *)

(** The whole of [_run_train]. *)
Lemma run_train_run
    (lib : Library) (self : Self) (train_dataset eval_dataset : TokDataset)
    (args : TrainArgs) (data_collator : option string) (w : World) :
  _run_train lib self train_dataset eval_dataset args data_collator w =
  let cfg := training_kwargs self args in
  let built := NewTrainingArguments cfg in
  let env := SetEnviron "WANDB_PROJECT" (project_name args) in
  let run := TrainerTrain (type_is self "tt") cfg train_dataset eval_dataset in
  let outcome :=
    match trainer_train lib (type_is self "tt") cfg train_dataset eval_dataset with
    | inl msg => inl (LibraryError msg)
    | inr u => inr u
    end in
  match training_arguments_init lib cfg with
  | inl msg => (after w [built], inl (LibraryError msg))
  | inr _ =>
      if type_is self "wp" then
        match _data_collator self with
        | None =>
            (after w [built; env],
             inl (AttributeError
                    "'NoneType' object has no attribute 'mlm_probability'"))
        | Some _ =>
            (after w [built; env; SetMlmProbability (mlm_probability args); run],
             outcome)
        end
      else (after w [built; env; run], outcome)
  end.
Proof.
  cbv zeta. unfold _run_train. mrun.
  unfold bind at 1. rewrite get_training_args_run.
  fold (after w [NewTrainingArguments (training_kwargs self args)]).
  destruct (training_arguments_init lib (training_kwargs self args));
    [ reflexivity | ].
  mrun. unfold set_mlm_probability.
  destruct (type_is self "wp").
  - destruct (_data_collator self); mrun; cbn [app]; reflexivity.
  - mrun. cbn [app]. reflexivity.
Qed.

(** X7: when [_run_train] returns, the library accepted the
    configuration built from the arguments, the project name went into
    WANDB_PROJECT before the run, the masking probability was set exactly
    when the task type is wp, and one trainer ran, of the seq2seq kind
    exactly when the configuration is, on the two datasets as given. *)
Theorem run_train_success
    (lib : Library) (self : Self) (train_dataset eval_dataset : TokDataset)
    (args : TrainArgs) (data_collator : option string) (w w' : World) :
  _run_train lib self train_dataset eval_dataset args data_collator w
    = (w', inr tt) ->
  let cfg := training_kwargs self args in
  w' = after w
         ([NewTrainingArguments cfg;
           SetEnviron "WANDB_PROJECT" (project_name args)]
          ++ (if type_is self "wp"
              then [SetMlmProbability (mlm_probability args)] else [])
          ++ [TrainerTrain (ta_seq2seq cfg) cfg train_dataset eval_dataset])%list
  /\ ta_seq2seq cfg = type_is self "tt"
  /\ training_arguments_init lib cfg = inr tt
  /\ trainer_train lib (ta_seq2seq cfg) cfg train_dataset eval_dataset = inr tt
  /\ (type_is self "wp" = true -> _data_collator self <> None).
Proof.
  rewrite run_train_run. cbv zeta. intros H.
  change (ta_seq2seq (training_kwargs self args)) with (type_is self "tt").
  destruct (training_arguments_init lib (training_kwargs self args))
    as [msg | []]; [ discriminate | ].
  destruct (type_is self "wp").
  - destruct (_data_collator self) as [dc | ]; [ | discriminate ].
    destruct (trainer_train lib (type_is self "tt") (training_kwargs self args)
                train_dataset eval_dataset) as [msg | []]; [ discriminate | ].
    pose proof (f_equal fst H) as Hw. cbn [fst] in Hw.
    repeat split; try reflexivity; [ symmetry; exact Hw | discriminate ].
  - destruct (trainer_train lib (type_is self "tt") (training_kwargs self args)
                train_dataset eval_dataset) as [msg | []]; [ discriminate | ].
    pose proof (f_equal fst H) as Hw. cbn [fst] in Hw.
    repeat split; try reflexivity; [ symmetry; exact Hw | discriminate ].
Qed.

Lemma run_train_success_witness :
  trainer_train (Demo.lib Demo.cpu_only) false
    (training_kwargs Demo.happy_gen Demo.args) [[1]] [[2]] = inr tt.
Proof.
  pose proof (run_train_success (Demo.lib Demo.cpu_only) Demo.happy_gen [[1]] [[2]]
                Demo.args (Some "default_data_collator") Demo.world0 _ eq_refl)
    as H.
  cbv zeta in H. destruct H as (_ & _ & _ & H & _). exact H.
Defined.

(** X8: when [_run_train] fails, it is for one of three reasons, each
    with its own footprint: the library refused the configuration (then
    WANDB_PROJECT was not set and no trainer was built); the task type is
    wp and there is no data collator (then WANDB_PROJECT was set and no
    trainer ran); or the trainer itself failed. *)
Theorem run_train_failure
    (lib : Library) (self : Self) (train_dataset eval_dataset : TokDataset)
    (args : TrainArgs) (data_collator : option string) (w w' : World) (e : Exn) :
  _run_train lib self train_dataset eval_dataset args data_collator w
    = (w', inl e) ->
  let cfg := training_kwargs self args in
  (exists msg,
     training_arguments_init lib cfg = inl msg
     /\ e = LibraryError msg
     /\ w' = after w [NewTrainingArguments cfg])
  \/ (type_is self "wp" = true
      /\ _data_collator self = None
      /\ e = AttributeError "'NoneType' object has no attribute 'mlm_probability'"
      /\ w' = after w [NewTrainingArguments cfg;
                       SetEnviron "WANDB_PROJECT" (project_name args)])
  \/ (exists msg evs,
        trainer_train lib (type_is self "tt") cfg train_dataset eval_dataset
          = inl msg
        /\ e = LibraryError msg
        /\ w' = after w (evs ++ [TrainerTrain (type_is self "tt") cfg
                                   train_dataset eval_dataset])%list).
Proof.
  rewrite run_train_run. cbv zeta. intros H.
  destruct (training_arguments_init lib (training_kwargs self args))
    as [msg | []].
  { left. exists msg. injection H as Hw He. auto. }
  destruct (type_is self "wp").
  - destruct (_data_collator self) as [dc | ].
    + right. right.
      destruct (trainer_train lib (type_is self "tt") (training_kwargs self args)
                  train_dataset eval_dataset) as [msg | []]; [ | discriminate ].
      injection H as Hw He. exists msg. eexists.
      split; [ reflexivity | ]. split; [ auto | ].
      rewrite <- Hw.
      change [NewTrainingArguments (training_kwargs self args);
              SetEnviron "WANDB_PROJECT" (project_name args);
              SetMlmProbability (mlm_probability args);
              TrainerTrain (type_is self "tt") (training_kwargs self args)
                train_dataset eval_dataset]
        with ([NewTrainingArguments (training_kwargs self args);
               SetEnviron "WANDB_PROJECT" (project_name args);
               SetMlmProbability (mlm_probability args)]
              ++ [TrainerTrain (type_is self "tt") (training_kwargs self args)
                    train_dataset eval_dataset])%list.
      reflexivity.
    + right. left. injection H as Hw He. auto.
  - right. right.
    destruct (trainer_train lib (type_is self "tt") (training_kwargs self args)
                train_dataset eval_dataset) as [msg | []]; [ | discriminate ].
    injection H as Hw He. exists msg. eexists.
    split; [ reflexivity | ]. split; [ auto | ].
    rewrite <- Hw.
    change [NewTrainingArguments (training_kwargs self args);
            SetEnviron "WANDB_PROJECT" (project_name args);
            TrainerTrain (type_is self "tt") (training_kwargs self args)
              train_dataset eval_dataset]
      with ([NewTrainingArguments (training_kwargs self args);
             SetEnviron "WANDB_PROJECT" (project_name args)]
            ++ [TrainerTrain (type_is self "tt") (training_kwargs self args)
                  train_dataset eval_dataset])%list.
    reflexivity.
Qed.

Lemma run_train_failure_witness :
  exists msg,
    training_arguments_init Strict.lib
      (training_kwargs Demo.happy_gen (Demo.make_args (1 # 2) true false "" false ""))
    = inl msg.
Proof.
  pose proof (run_train_failure Strict.lib Demo.happy_gen [[1]] [[2]]
                (Demo.make_args (1 # 2) true false "" false "")
                (Some "default_data_collator") Demo.world0 _ _ eq_refl) as H.
  cbv zeta in H.
  destruct H as [(msg & Hm & _) | [(Hwp & _) | (msg & evs & Ht & _)]].
  - exists msg. exact Hm.
  - discriminate Hwp.
  - discriminate Ht.
Defined.

(** ** The training configuration *)

(** X9: the configuration never names an empty list of reporting sinks
    (an empty [report_to] becomes the single sink "none", any other list
    goes through), never carries an empty deepspeed path (the empty string
    becomes None, any other path goes through), and asks for the mps
    device exactly when the instance sits on mps. *)
Theorem training_kwargs_invariants (self : Self) (args : TrainArgs) :
  let cfg := training_kwargs self args in
  ta_report_to cfg <> []
  /\ (report_to args = [] -> ta_report_to cfg = ["none"])
  /\ (report_to args <> [] -> ta_report_to cfg = report_to args)
  /\ ta_deepspeed cfg <> Some ""
  /\ (ta_deepspeed cfg = None <-> deepspeed args = "")
  /\ (forall path, ta_deepspeed cfg = Some path -> deepspeed args = path)
  /\ (ta_use_mps_device cfg = true <-> device self = mps).
Proof.
  cbv zeta. unfold training_kwargs.
  cbn [ta_report_to ta_deepspeed ta_use_mps_device]. unfold none_if_empty.
  repeat match goal with |- _ /\ _ => split end.
  - destruct (report_to args); cbn; discriminate.
  - intros ->. reflexivity.
  - destruct (report_to args); [ congruence | reflexivity ].
  - destruct (String.eqb_spec (deepspeed args) ""); [ discriminate | congruence ].
  - destruct (String.eqb_spec (deepspeed args) ""); split; congruence.
  - intros path.
    destruct (String.eqb_spec (deepspeed args) ""); [ discriminate | congruence ].
  - destruct (device self); cbn; split; congruence.
Qed.

(** X10: for an instance that [HappyGeneration.__init__] returns, on any
    machine: the configuration is never of the seq2seq kind, it asks for
    the mps device exactly when mps is available and built and cuda is not
    available, and a run of [_run_train] that returns has used the plain
    trainer and has not touched a masking probability. *)
Theorem generation_instance_dispatch
    (lib0 lib : Library) (model_type model_name load_path : string)
    (w0 w1 : World) (self : Self) (args : TrainArgs) :
  HappyGeneration.__init__ lib0 model_type model_name load_path w0
    = (w1, inr self) ->
  ta_seq2seq (training_kwargs self args) = false
  /\ (ta_use_mps_device (training_kwargs self args) = true
      <-> cuda_is_available (torch lib0) = false
          /\ mps_is_available (torch lib0) = true
          /\ mps_is_built (torch lib0) = true)
  /\ (forall train_dataset eval_dataset w w',
        _run_train lib self train_dataset eval_dataset args (_data_collator self) w
          = (w', inr tt) ->
        w' = after w [NewTrainingArguments (training_kwargs self args);
                      SetEnviron "WANDB_PROJECT" (project_name args);
                      TrainerTrain false (training_kwargs self args)
                        train_dataset eval_dataset]).
Proof.
  unfold HappyGeneration.__init__. intros Hinit.
  unfold bind in Hinit. rewrite init_run in Hinit. cbv zeta in Hinit.
  destruct (from_pretrained lib0
              (if negb (load_path =? "")%string then load_path else model_name))
    as [msg | tok]; [ discriminate | ].
  unfold ret in Hinit. pose proof (f_equal snd Hinit) as Hs.
  cbn [snd device tokenizer] in Hs. injection Hs as Hs. clear Hinit.
  assert (Htype : _type self = Some "gen") by (subst self; reflexivity).
  assert (Hdev : device self =
            if cuda_is_available (torch lib0) then cuda 0
            else if mps_is_available (torch lib0) && mps_is_built (torch lib0)
                 then mps else cpu) by (subst self; reflexivity).
  clear Hs.
  assert (Htt : type_is self "tt" = false) by (unfold type_is; rewrite Htype; reflexivity).
  assert (Hwp : type_is self "wp" = false) by (unfold type_is; rewrite Htype; reflexivity).
  split; [ exact Htt | ]. split.
  - unfold training_kwargs. cbn [ta_use_mps_device]. rewrite Hdev.
    destruct (cuda_is_available (torch lib0)), (mps_is_available (torch lib0)),
      (mps_is_built (torch lib0)); cbn; split; intros H;
      try discriminate; intuition discriminate.
  - intros train_dataset eval_dataset w w' Hrun.
    rewrite run_train_run in Hrun. cbv zeta in Hrun. rewrite Hwp, Htt in Hrun.
    destruct (training_arguments_init lib (training_kwargs self args));
      [ discriminate | ].
    pose proof (f_equal fst Hrun) as Hw. cbn [fst] in Hw. symmetry. exact Hw.
Qed.

Lemma generation_instance_dispatch_witness :
  exists w1 self,
    HappyGeneration.__init__ (Demo.lib Demo.all_accelerators) "GPT2" "gpt2" ""
      Demo.world0 = (w1, inr self)
    /\ ta_seq2seq (training_kwargs self Demo.args) = false
    /\ ta_use_mps_device (training_kwargs self Demo.args) <> true.
Proof.
  destruct (HappyGeneration.__init__ (Demo.lib Demo.all_accelerators) "GPT2" "gpt2"
              "" Demo.world0) as [w1 [e | self]] eqn:Hinit;
    [ vm_compute in Hinit; discriminate Hinit | ].
  exists w1, self. split; [ reflexivity | ].
  destruct (generation_instance_dispatch (Demo.lib Demo.all_accelerators)
              (Demo.lib Demo.cpu_only) "GPT2" "gpt2" "" Demo.world0 w1 self
              Demo.args Hinit) as (Hseq & Hmps & _).
  split; [ exact Hseq | ].
  intros H. apply Hmps in H. destruct H as [H _]. discriminate H.
Defined.

(** ** Evaluation *)

Lemma bind_run {A B : Type} (c : M A) (k : A -> M B) (w : World) :
  bind c k w =
  match c w with
  | (w', inl e) => (w', inl e)
  | (w', inr a) => k a w'
  end.
Proof. reflexivity. Qed.

(** The load branch of [_preprocess_data_eval] in full. *)
Lemma preprocess_eval_cached
    (lib : Library) (self : Self) (input_filepath : string) (args : EvalArgs)
    (w : World) :
  e_load_preprocessed_data args = true ->
  _preprocess_data_eval lib self input_filepath args w =
  let path := e_load_preprocessed_data_path args ++ "/eval" in
  let w1 :=
    after w [LogInfo ("Loading dataset from " ++ e_load_preprocessed_data_path args
                      ++ "...");
             LoadFromDisk path] in
  match load_from_disk_dataset lib path with
  | inl msg => (w1, inl (LibraryError msg))
  | inr dataset =>
      if e_save_preprocessed_data args then
        (after w1
           [LogWarning "Both save_preprocessed_data and load_data are enabled.";
            LogInfo ("Saving evaluating dataset to "
                     ++ e_save_preprocessed_data_path args ++ "...");
            SaveToDisk (e_save_preprocessed_data_path args) ["eval"]],
         match save_to_disk lib (e_save_preprocessed_data_path args)
                 [("eval", dataset)] with
         | inl msg => inl (LibraryError msg)
         | inr _ => inr dataset
         end)
      else (w1, inr dataset)
  end.
Proof.
  intros Hload. cbv zeta. unfold _preprocess_data_eval. rewrite Hload.
  cbn [negb]. mrun. cbn [app].
  destruct (load_from_disk_dataset lib (e_load_preprocessed_data_path args ++ "/eval"));
    [ reflexivity | ].
  destruct (e_save_preprocessed_data args); mrun; cbn [app map fst];
    [ | reflexivity ].
  destruct (save_to_disk lib (e_save_preprocessed_data_path args) [("eval", t)]);
    reflexivity.
Qed.

(** X11: with cache loading on, [eval] preprocessing reads the dataset at
    [load_path + "/eval"] and nothing else. When saving is set as well it
    warns and writes that dataset back, as the split "eval", to the save
    path exactly as given: unlike [train], it has no check on a save path
    that ends in .json. What it returns is the loaded dataset. *)
Theorem eval_cache_resaved_unchecked
    (lib : Library) (self : Self) (input_filepath : string) (args : EvalArgs)
    (w : World) (dataset : TokDataset) :
  e_load_preprocessed_data args = true ->
  e_save_preprocessed_data args = true ->
  load_from_disk_dataset lib (e_load_preprocessed_data_path args ++ "/eval")
    = inr dataset ->
  exists evs r,
    _preprocess_data_eval lib self input_filepath args w = (after w evs, r)
    /\ In (LoadFromDisk (e_load_preprocessed_data_path args ++ "/eval")) evs
    /\ In (LogWarning "Both save_preprocessed_data and load_data are enabled.") evs
    /\ In (SaveToDisk (e_save_preprocessed_data_path args) ["eval"]) evs
    /\ (forall file_type data_files split,
          ~ In (LoadDataset file_type data_files split) evs)
    /\ (forall msg, r <> inl (ValueError msg))
    /\ (forall got, r = inr got -> got = dataset)
    /\ (forall u,
          save_to_disk lib (e_save_preprocessed_data_path args) [("eval", dataset)]
            = inr u -> r = inr dataset).
Proof.
  intros Hload Hsave Hdisk.
  rewrite (preprocess_eval_cached lib self input_filepath args w Hload).
  cbv zeta. rewrite Hdisk, Hsave, after_after. cbn [app].
  eexists. eexists. split; [ reflexivity | ].
  repeat match goal with |- _ /\ _ => split end.
  - cbn. tauto.
  - cbn. tauto.
  - cbn. tauto.
  - intros ft df sp Hin. cbn in Hin.
    repeat match goal with H : _ \/ _ |- _ => destruct H as [H | H] end;
      try discriminate; contradiction.
  - intros msg.
    destruct (save_to_disk lib (e_save_preprocessed_data_path args)
                [("eval", dataset)]); discriminate.
  - intros got.
    destruct (save_to_disk lib (e_save_preprocessed_data_path args)
                [("eval", dataset)]); congruence.
  - intros u Hu. rewrite Hu. reflexivity.
Qed.

Lemma eval_cache_resaved_unchecked_witness :
  exists evs,
    _preprocess_data_eval Strict.lib Demo.happy_gen "eval.txt"
      (Strict.eval_args true "old.json" true "cache") Demo.world0
    = (after Demo.world0 evs, inr [[3]])
    /\ In (SaveToDisk "old.json" ["eval"]) evs.
Proof.
  destruct (eval_cache_resaved_unchecked Strict.lib Demo.happy_gen "eval.txt"
              (Strict.eval_args true "old.json" true "cache") Demo.world0 [[3]]
              eq_refl eq_refl eq_refl)
    as (evs & r & Hrun & _ & _ & Hsave & _ & _ & _ & Hret).
  exists evs. rewrite Hrun, (Hret tt eq_refl). split; [ reflexivity | exact Hsave ].
Defined.

(** X12: with cache loading on, the input file path has no influence at
    all: [train] and [eval] give the same outcome and the same trace for
    any two input paths, on any instance. *)
Theorem cached_runs_ignore_input_path
    (lib : Library) (self : Self) (path1 path2 : string) (w : World) :
  (forall (args : TrainArgs) (eval_filepath : string),
     load_preprocessed_data args = true ->
     train lib self path1 (ArgsObj args) eval_filepath w
     = train lib self path2 (ArgsObj args) eval_filepath w)
  /\ (forall args : EvalArgs,
        e_load_preprocessed_data args = true ->
        eval lib self path1 (ArgsObj args) w
        = eval lib self path2 (ArgsObj args) w).
Proof.
  split.
  - intros args eval_filepath Hload.
    destruct (Qle_bool (eval_ratio args) 0 && (eval_filepath =? "")%string) eqn:Hchk.
    { unfold train. rewrite Hchk. reflexivity. }
    rewrite !train_unfold by exact Hchk.
    assert (Hpre : _preprocess_data_train lib self path1 eval_filepath args w
                   = _preprocess_data_train lib self path2 eval_filepath args w).
    { destruct (PyStr.endswith (save_preprocessed_data_path args) ".json") eqn:Hj.
      - unfold _preprocess_data_train. rewrite Hload, Hj. cbn [negb]. mrun.
        reflexivity.
      - rewrite !(preprocess_cache_run lib self _ eval_filepath args w Hload Hj).
        reflexivity. }
    rewrite Hpre. reflexivity.
  - intros args Hload. unfold eval.
    rewrite !(bind_run (_preprocess_data_eval lib self _ args)).
    rewrite !(preprocess_eval_cached lib self _ args w Hload). reflexivity.
Qed.

Lemma cached_runs_ignore_input_path_witness :
  train (Demo.lib Demo.cpu_only) Demo.happy_gen "train.txt"
    (ArgsObj (Demo.make_args (1 # 2) false false "" true "cache")) "" Demo.world0
  = train (Demo.lib Demo.cpu_only) Demo.happy_gen "no/such/file.xyz"
      (ArgsObj (Demo.make_args (1 # 2) false false "" true "cache")) "" Demo.world0.
Proof.
  apply (cached_runs_ignore_input_path (Demo.lib Demo.cpu_only) Demo.happy_gen
           "train.txt" "no/such/file.xyz" Demo.world0).
  reflexivity.
Defined.

(** The whole of [_run_eval]. *)
Lemma run_eval_run
    (lib : Library) (self : Self) (dataset : TokDataset)
    (data_collator : option string) (args : EvalArgs) (w : World) :
  _run_eval lib self dataset data_collator args w =
  let kwargs := eval_kwargs self (tmp_dir_name lib) args in
  let setup :=
    if type_is self "wp" then [SetMlmProbability (e_mlm_probability args)] else [] in
  if type_is self "wp" && match _data_collator self with None => true | _ => false end
  then (w, inl (AttributeError "'NoneType' object has no attribute 'mlm_probability'"))
  else
    match eval_arguments_init lib kwargs with
    | inl msg =>
        (after w (setup ++ [NewEvalTrainingArguments kwargs]), inl (LibraryError msg))
    | inr _ =>
        (after w (setup ++ [NewEvalTrainingArguments kwargs;
                            TrainerEvaluate kwargs dataset]),
         match trainer_evaluate lib kwargs dataset with
         | inl msg => inl (LibraryError msg)
         | inr metrics => inr metrics
         end)
    end.
Proof.
  cbv zeta. unfold _run_eval, _get_eval_args, set_mlm_probability.
  destruct (type_is self "wp").
  - destruct (_data_collator self); cbn [andb]; mrun; [ | reflexivity ].
    destruct (eval_arguments_init lib (eval_kwargs self (tmp_dir_name lib) args));
      mrun; cbn [app]; reflexivity.
  - cbn [andb]. mrun.
    destruct (eval_arguments_init lib (eval_kwargs self (tmp_dir_name lib) args));
      mrun; cbn [app]; try rewrite after_nil; reflexivity.
Qed.

(** X13: a loss that [eval] returns is the value the trainer's metrics
    hold under "eval_loss", for the dataset the preprocessing produced; the
    evaluation ran with seed 42, no reporting sink and the temporary
    directory as output directory, and the result was printed last. *)
Theorem eval_returns_reported_loss
    (lib : Library) (self : Self) (input_filepath : string) (args : EvalArgs)
    (w w' : World) (result : EvalResult) :
  eval lib self input_filepath (ArgsObj args) w = (w', inr result) ->
  exists w1 dataset metrics evs,
    let kwargs := eval_kwargs self (tmp_dir_name lib) args in
    _preprocess_data_eval lib self input_filepath args w = (w1, inr dataset)
    /\ trainer_evaluate lib kwargs dataset = inr metrics
    /\ lookup metrics "eval_loss" = Some (loss result)
    /\ w' = after w1 (evs ++ [TrainerEvaluate kwargs dataset; Print "RESULT"])%list
    /\ ea_seed kwargs = 42
    /\ ea_report_to kwargs = ["none"]
    /\ ea_output_dir kwargs = tmp_dir_name lib.
Proof.
  unfold eval. intros H. rewrite bind_run in H.
  destruct (_preprocess_data_eval lib self input_filepath args w)
    as [w1 [e | dataset]] eqn:Hpre; [ discriminate | ].
  rewrite bind_run, run_eval_run in H. cbv zeta in H.
  destruct (type_is self "wp" &&
            match _data_collator self with None => true | _ => false end);
    [ discriminate | ].
  destruct (eval_arguments_init lib (eval_kwargs self (tmp_dir_name lib) args));
    [ discriminate | ].
  destruct (trainer_evaluate lib (eval_kwargs self (tmp_dir_name lib) args) dataset)
    as [msg | metrics] eqn:Hev; [ discriminate | ].
  revert H. mrun. intros H.
  destruct (lookup metrics "eval_loss") as [l | ] eqn:Hloss; [ | discriminate ].
  unfold ret in H. pose proof (f_equal fst H) as Hw. pose proof (f_equal snd H) as Hr.
  cbn [fst snd] in Hw, Hr. injection Hr as Hr. subst result.
  exists w1, dataset, metrics,
    ((if type_is self "wp"
      then [SetMlmProbability (e_mlm_probability args)] else [])
     ++ [NewEvalTrainingArguments (eval_kwargs self (tmp_dir_name lib) args)])%list.
  cbv zeta.
  repeat match goal with |- _ /\ _ => split end; try reflexivity.
  - exact Hev.
  - exact Hloss.
  - rewrite <- Hw. unfold after. cbn [trace np_random]. f_equal.
    rewrite <- !app_assoc. reflexivity.
Qed.

Lemma eval_returns_reported_loss_witness :
  exists dataset metrics,
    trainer_evaluate (Demo.lib Demo.cpu_only)
      (eval_kwargs (Conforming.instance (Demo.lib Demo.cpu_only) cpu (FTStr "text"))
         (tmp_dir_name (Demo.lib Demo.cpu_only))
         (Strict.eval_args false "" false "")) dataset = inr metrics
    /\ lookup metrics "eval_loss" = Some (1 # 2).
Proof.
  destruct (eval_returns_reported_loss (Demo.lib Demo.cpu_only)
              (Conforming.instance (Demo.lib Demo.cpu_only) cpu (FTStr "text"))
              "eval.txt" (Strict.eval_args false "" false "") Demo.world0 _
              {| loss := 1 # 2 |} eq_refl)
    as (w1 & dataset & metrics & evs & _ & Hev & Hloss & _).
  exists dataset, metrics. split; [ exact Hev | exact Hloss ].
Defined.

(** X14: when the evaluation has run and the trainer's metrics have no
    "eval_loss" entry, [eval] ends in a KeyError on that key, after the
    result was printed. This holds on every instance, the masked-word task
    with its extra step included: the evaluation that ran is the one
    [trainer_evaluate] call on the preprocessed dataset. *)
Theorem eval_missing_loss
    (lib : Library) (self : Self) (input_filepath : string) (args : EvalArgs)
    (w w1 w2 : World) (dataset : TokDataset) (metrics : list (string * Q)) :
  _preprocess_data_eval lib self input_filepath args w = (w1, inr dataset) ->
  _run_eval lib self dataset (_data_collator self) args w1 = (w2, inr metrics) ->
  lookup metrics "eval_loss" = None ->
  let kwargs := eval_kwargs self (tmp_dir_name lib) args in
  eval lib self input_filepath (ArgsObj args) w
    = (after w2 [Print "RESULT"], inl (KeyError "eval_loss"))
  /\ trainer_evaluate lib kwargs dataset = inr metrics
  /\ w2 = after w1
            ((if type_is self "wp"
              then [SetMlmProbability (e_mlm_probability args)] else [])
             ++ [NewEvalTrainingArguments kwargs;
                 TrainerEvaluate kwargs dataset])%list.
Proof.
  intros Hpre Hrun Hloss. cbv zeta. split.
  - unfold eval. rewrite bind_run, Hpre. rewrite bind_run, Hrun.
    mrun. rewrite Hloss. reflexivity.
  - rewrite run_eval_run in Hrun. cbv zeta in Hrun.
    destruct (type_is self "wp" &&
              match _data_collator self with None => true | _ => false end);
      [ discriminate | ].
    destruct (eval_arguments_init lib (eval_kwargs self (tmp_dir_name lib) args));
      [ discriminate | ].
    destruct (trainer_evaluate lib (eval_kwargs self (tmp_dir_name lib) args)
                dataset) as [msg | metrics'] eqn:Hev; [ discriminate | ].
    pose proof (f_equal fst Hrun) as Hw. pose proof (f_equal snd Hrun) as Hm.
    cbn [fst snd] in Hw, Hm. injection Hm as <-.
    split; [ reflexivity | symmetry; exact Hw ].
Qed.

(** On the masked-word instance: six events, then the KeyError. *)
Lemma eval_missing_loss_witness :
  eval Strict.lib Strict.word_prediction "eval.txt"
    (ArgsObj (Strict.eval_args false "" true "cache")) Demo.world0
  = (after Demo.world0
       [LogInfo "Loading dataset from cache..."; LoadFromDisk "cache/eval";
        SetMlmProbability (15 # 100);
        NewEvalTrainingArguments
          (eval_kwargs Strict.word_prediction (tmp_dir_name Strict.lib)
             (Strict.eval_args false "" true "cache"));
        TrainerEvaluate
          (eval_kwargs Strict.word_prediction (tmp_dir_name Strict.lib)
             (Strict.eval_args false "" true "cache")) [[3]];
        Print "RESULT"],
     inl (KeyError "eval_loss")).
Proof.
  pose proof (eval_missing_loss Strict.lib Strict.word_prediction "eval.txt"
                (Strict.eval_args false "" true "cache") Demo.world0 _ _ [[3]]
                [("eval_runtime", 1 # 1)] eq_refl eq_refl eq_refl) as H.
  cbv zeta in H. destruct H as (Heval & _). rewrite Heval. reflexivity.
Defined.

(** ** Saving preprocessed data *)

Ltac explore_all tac :=
  repeat first
    [ progress (mrun; cbn [app negb])
    | rewrite bind_check_file_type_run
    | tac
    | match goal with
      | |- context [match ?x with inl _ => _ | inr _ => _ end] =>
          destruct x eqn:?
      | |- context [match lookup ?d ?key with _ => _ end] =>
          destruct (lookup d key) eqn:?
      | |- context [if ?b then _ else _] => destruct b eqn:?
      end ].

(** X15: [train] preprocessing writes a cache only when saving was
    requested, only to the configured save path, only the two splits train
    and eval, and never to a path that ends in .json; with saving
    requested and a save path that ends in .json it does not return
    partitions at all. *)
Theorem train_cache_never_written_to_json
    (lib lib' : Library) (self : Self) (input_filepath eval_filepath : string)
    (args : TrainArgs) (w : World) :
  _tok_function self = HappyGeneration._tok_function lib'
  \/ _tok_function self = Conforming._tok_function lib' ->
  exists evs r,
    _preprocess_data_train lib self input_filepath eval_filepath args w
      = (after w evs, r)
    /\ (forall path splits,
          In (SaveToDisk path splits) evs ->
          path = save_preprocessed_data_path args
          /\ splits = ["train"; "eval"]
          /\ save_preprocessed_data args = true
          /\ PyStr.endswith path ".json" = false)
    /\ (save_preprocessed_data args = true ->
        PyStr.endswith (save_preprocessed_data_path args) ".json" = true ->
        exists e, r = inl e).
Proof.
  intros Hm. unfold _preprocess_data_train.
  destruct Hm as [Hm | Hm];
    [ explore_all ltac:(rewrite (tok_call_generation lib' self) by exact Hm)
    | explore_all ltac:(rewrite (tok_call_conforming lib' self) by exact Hm) ];
    cbn [map fst];
    close_run;
    (split;
     [ intros path splits Hin; cbn [In] in Hin;
       repeat match goal with
              | H : _ \/ _ |- _ => destruct H as [H | H]
              end;
       try discriminate; try contradiction;
       match goal with
       | H : SaveToDisk _ _ = SaveToDisk _ _ |- _ =>
           injection H as <- <-; repeat split; assumption
       end
     | intros Hs Hj; try congruence; eexists; reflexivity ]).
Qed.

Lemma train_cache_never_written_to_json_witness :
  exists evs e,
    _preprocess_data_train (Demo.lib Demo.cpu_only)
      (Conforming.instance (Demo.lib Demo.cpu_only) cpu (FTStr "text"))
      "train.txt" "eval.txt" (Demo.make_args (1 # 2) false true "old.json" false "")
      Demo.world0
    = (after Demo.world0 evs, inl e)
    /\ forall path splits, ~ In (SaveToDisk path splits) evs.
Proof.
  destruct (train_cache_never_written_to_json (Demo.lib Demo.cpu_only)
              (Demo.lib Demo.cpu_only)
              (Conforming.instance (Demo.lib Demo.cpu_only) cpu (FTStr "text"))
              "train.txt" "eval.txt"
              (Demo.make_args (1 # 2) false true "old.json" false "")
              Demo.world0 (or_intror eq_refl))
    as (evs & r & Hrun & Hsave & Hfail).
  destruct (Hfail eq_refl eq_refl) as [e He]. subst r.
  exists evs, e. split; [ exact Hrun | ].
  intros path splits Hin. destruct (Hsave path splits Hin) as (Hp & _ & _ & Hj).
  subst path. discriminate Hj.
Defined.



(** ** Text generation *)

(** What the list comprehension over the bad words returns: one id list
    per phrase, in order, each the tokenizer's ids for a space followed by
    the stripped phrase. *)
Lemma bad_words_comprehension_ids
    (lib : Generate.GenLibrary) (phrases : list string) (ids : list (list Z)) :
  Generate.bad_words_comprehension lib phrases = inr ids <->
  Forall2
    (fun phrase phrase_ids =>
       Generate.input_ids lib (" " ++ PyWhitespace.strip phrase) = inr phrase_ids)
    phrases ids.
Proof.
  revert ids. induction phrases as [ | phrase rest IH]; intros ids;
    cbn [Generate.bad_words_comprehension].
  - split.
    + intros H. injection H as <-. constructor.
    + intros H. inversion H. reflexivity.
  - destruct (Generate.input_ids lib (" " ++ PyWhitespace.strip phrase))
      as [msg | first] eqn:Hfirst; cbn [Generate.lift].
    + split; [ discriminate | ].
      intros H. inversion H as [ | ? ? ? ? Hhead _]; subst.
      rewrite Hfirst in Hhead. discriminate Hhead.
    + destruct (Generate.bad_words_comprehension lib rest) as [e | more] eqn:Hrest.
      * split; [ discriminate | ].
        intros H. inversion H as [ | ? ? ? more' _ Htail]; subst.
        apply IH in Htail. try rewrite Hrest in Htail. discriminate Htail.
      * split.
        -- intros H. injection H as <-. constructor; [ exact Hfirst | ].
           apply IH. reflexivity.
        -- intros H. inversion H as [ | ? first' ? more' Hhead Htail]; subst.
           apply IH in Htail. try rewrite Hrest in Htail. rewrite Hfirst in Hhead.
           injection Htail as <-. injection Hhead as <-. reflexivity.
Qed.

(** X17: [generate_text] returns a text exactly when: the caller's text
    is a string with at least one character, the tokenizer encodes it,
    every configured bad word tokenizes (each as a space followed by the
    stripped phrase, one id list per phrase, in order; with no bad words,
    None or an empty list, no ids are passed at all), and the pipeline,
    called once on that very text with no echo of the prompt, with the
    configured minimum and maximum lengths each raised by the number of
    prompt tokens, with the other settings as they are and with these
    bad-word ids, returns at least one output whose first holds the text
    under "generated_text". *)
Theorem generate_text_success
    (lib : Generate.GenLibrary) (text : Generate.TextArg)
    (args : Generate.GENSettings) (result : Generate.GenerationResult) :
  Generate.generate_text lib text args = inr result <->
  exists s prompt_ids bad_words_ids first others,
    let n := Z.of_nat (List.length prompt_ids) in
    let kwargs :=
      {| Generate.kw_min_length := Generate.min_length args + n;
         Generate.kw_return_full_text := false;
         Generate.kw_max_length := Generate.max_length args + n;
         Generate.kw_do_sample := Generate.do_sample args;
         Generate.kw_early_stopping := Generate.early_stopping args;
         Generate.kw_num_beams := Generate.num_beams args;
         Generate.kw_temperature := Generate.temperature args;
         Generate.kw_top_k := Generate.top_k args;
         Generate.kw_no_repeat_ngram_size := Generate.no_repeat_ngram_size args;
         Generate.kw_top_p := Generate.top_p args;
         Generate.kw_bad_words_ids := bad_words_ids |} in
    text = Generate.TStr s
    /\ s <> ""
    /\ Generate.encode lib s = inr prompt_ids
    /\ match Generate.bad_words args with
       | None | Some [] => bad_words_ids = None
       | Some phrases =>
           exists ids,
             bad_words_ids = Some ids
             /\ Forall2
                  (fun phrase phrase_ids =>
                     Generate.input_ids lib (" " ++ PyWhitespace.strip phrase)
                     = inr phrase_ids)
                  phrases ids
       end
    /\ Generate.pipeline lib s kwargs = inr (first :: others)
    /\ lookup first "generated_text" = Some (Generate.text result)
    /\ Generate.kw_max_length kwargs - Generate.kw_min_length kwargs
       = Generate.max_length args - Generate.min_length args.
Proof.
  unfold Generate.generate_text, Generate.__assert_default_text_is_val.
  split.
  - destruct text as [s | ]; [ | discriminate ].
    destruct (String.eqb_spec s "") as [Hs | Hs]; [ discriminate | ].
    destruct (Generate.encode lib s) as [msg | prompt_ids] eqn:Henc;
      cbn [Generate.lift]; [ discriminate | ].
    destruct (Generate.bad_words args) as [[ | phrase rest] | ] eqn:Hwords.
    + match goal with
      | |- context [Generate.pipeline lib s ?kw] =>
          destruct (Generate.pipeline lib s kw) as [msg | output] eqn:Hpipe
      end; cbn [Generate.lift]; [ discriminate | ].
      destruct output as [ | first others]; [ discriminate | ].
      destruct (lookup first "generated_text") as [generated | ] eqn:Hgen;
        [ | discriminate ].
      intros H. injection H as <-.
      exists s, prompt_ids, None, first, others. cbv zeta.
      repeat match goal with |- _ /\ _ => split end;
        try reflexivity; try assumption.
      cbn [Generate.kw_max_length Generate.kw_min_length]. lia.
    + destruct (Generate.bad_words_comprehension lib (phrase :: rest))
        as [e | ids] eqn:Hc; [ discriminate | ].
      match goal with
      | |- context [Generate.pipeline lib s ?kw] =>
          destruct (Generate.pipeline lib s kw) as [msg | output] eqn:Hpipe
      end; cbn [Generate.lift]; [ discriminate | ].
      destruct output as [ | first others]; [ discriminate | ].
      destruct (lookup first "generated_text") as [generated | ] eqn:Hgen;
        [ | discriminate ].
      intros H. injection H as <-.
      exists s, prompt_ids, (Some ids), first, others. cbv zeta.
      repeat match goal with |- _ /\ _ => split end;
        try reflexivity; try assumption.
      * exists ids. split; [ reflexivity | ].
        apply bad_words_comprehension_ids. exact Hc.
      * cbn [Generate.kw_max_length Generate.kw_min_length]. lia.
    + match goal with
      | |- context [Generate.pipeline lib s ?kw] =>
          destruct (Generate.pipeline lib s kw) as [msg | output] eqn:Hpipe
      end; cbn [Generate.lift]; [ discriminate | ].
      destruct output as [ | first others]; [ discriminate | ].
      destruct (lookup first "generated_text") as [generated | ] eqn:Hgen;
        [ | discriminate ].
      intros H. injection H as <-.
      exists s, prompt_ids, None, first, others. cbv zeta.
      repeat match goal with |- _ /\ _ => split end;
        try reflexivity; try assumption.
      cbn [Generate.kw_max_length Generate.kw_min_length]. lia.
  - intros (s & prompt_ids & bad_words_ids & first & others & H).
    cbv zeta in H.
    destruct H as (-> & Hs & Henc & Hwords & Hpipe & Hgen & _).
    apply String.eqb_neq in Hs. rewrite Hs, Henc. cbn [Generate.lift].
    destruct (Generate.bad_words args) as [[ | phrase rest] | ].
    + subst bad_words_ids. rewrite Hpipe. cbn [Generate.lift]. rewrite Hgen.
      destruct result. reflexivity.
    + destruct Hwords as (ids & -> & Hids).
      apply bad_words_comprehension_ids in Hids. rewrite Hids, Hpipe.
      cbn [Generate.lift]. rewrite Hgen. destruct result. reflexivity.
    + subst bad_words_ids. rewrite Hpipe. cbn [Generate.lift]. rewrite Hgen.
      destruct result. reflexivity.
Qed.

(** With two bad words configured, the pipeline is handed their two id
    lists. *)
Lemma generate_text_success_witness :
  exists ids first others,
    Generate.pipeline Generate.demo_lib "hello"
      {| Generate.kw_min_length := 15;
         Generate.kw_return_full_text := false;
         Generate.kw_max_length := 55;
         Generate.kw_do_sample := false;
         Generate.kw_early_stopping := false;
         Generate.kw_num_beams := 1;
         Generate.kw_temperature := 1;
         Generate.kw_top_k := 50;
         Generate.kw_no_repeat_ngram_size := 0;
         Generate.kw_top_p := 1;
         Generate.kw_bad_words_ids := Some ids |}
    = inr (first :: others)
    /\ ids = [[32; 104; 105]; [32; 121; 111]]
    /\ lookup first "generated_text" = Some " world".
Proof.
  destruct (proj1 (generate_text_success Generate.demo_lib (Generate.TStr "hello")
                     (Generate.set_bad_words Generate.default_settings
                        (Some [" hi "; "yo"]))
                     {| Generate.text := " world" |}) eq_refl)
    as (s & prompt_ids & bad & first & others & H).
  cbv zeta in H.
  destruct H as (Hs & _ & Henc & (ids & -> & Hids) & Hpipe & Hgen & _).
  injection Hs as <-. vm_compute in Henc. injection Henc as <-.
  exists ids, first, others. split; [ exact Hpipe | ]. split; [ | exact Hgen ].
  apply bad_words_comprehension_ids in Hids. vm_compute in Hids.
  injection Hids as <-. reflexivity.
Defined.

(** ** Whitespace around bad words *)

Lemma lstrip_all_space (s : string) :
  PyWhitespace.all_space s = true -> PyWhitespace.lstrip s = "".
Proof.
  induction s as [ | c s IH]; cbn; [ reflexivity | ].
  intros H. apply andb_true_iff in H. destruct H as [Hc Hs].
  rewrite Hc. exact (IH Hs).
Qed.

Lemma rstrip_all_space (s : string) :
  PyWhitespace.all_space s = true -> PyWhitespace.rstrip s = "".
Proof.
  induction s as [ | c s IH]; cbn; [ reflexivity | ].
  intros H. apply andb_true_iff in H. destruct H as [Hc Hs].
  rewrite (IH Hs), Hc. reflexivity.
Qed.

Lemma lstrip_append (s r : string) :
  PyWhitespace.lstrip (s ++ r) =
  if PyWhitespace.all_space s then PyWhitespace.lstrip r
  else PyWhitespace.lstrip s ++ r.
Proof.
  induction s as [ | c s IH]; cbn; [ reflexivity | ].
  destruct (PyWhitespace.is_space c); cbn; [ exact IH | reflexivity ].
Qed.

Lemma rstrip_append_space (s r : string) :
  PyWhitespace.all_space r = true ->
  PyWhitespace.rstrip (s ++ r) = PyWhitespace.rstrip s.
Proof.
  intros Hr. induction s as [ | c s IH]; cbn.
  - apply rstrip_all_space. exact Hr.
  - rewrite IH. reflexivity.
Qed.

(** Whitespace on either side of a phrase does not survive [strip]. *)
Lemma strip_padded (l s r : string) :
  PyWhitespace.all_space l = true -> PyWhitespace.all_space r = true ->
  PyWhitespace.strip (l ++ s ++ r) = PyWhitespace.strip s.
Proof.
  intros Hl Hr. unfold PyWhitespace.strip.
  rewrite lstrip_append, Hl, lstrip_append.
  destruct (PyWhitespace.all_space s) eqn:Hs.
  - rewrite (lstrip_all_space r Hr), (lstrip_all_space s Hs). reflexivity.
  - apply rstrip_append_space. exact Hr.
Qed.

(** X18: the bad words of [generate_text] are insensitive to the
    whitespace around them. Padding any of the configured phrases with
    whitespace on the left and on the right gives the same outcome, for
    every tokenizer, pipeline, text and other settings, and an empty list
    of bad words gives the outcome of no list at all. *)
Theorem generate_text_bad_words_padding
    (lib : Generate.GenLibrary) (text : Generate.TextArg)
    (args : Generate.GENSettings) (padded phrases : list string) :
  Forall2
    (fun p q =>
       exists l r,
         PyWhitespace.all_space l = true /\ PyWhitespace.all_space r = true
         /\ p = l ++ q ++ r)
    padded phrases ->
  Generate.generate_text lib text (Generate.set_bad_words args (Some padded))
  = Generate.generate_text lib text (Generate.set_bad_words args (Some phrases))
  /\ Generate.generate_text lib text (Generate.set_bad_words args (Some []))
     = Generate.generate_text lib text (Generate.set_bad_words args None).
Proof.
  intros Hpad. split; [ | reflexivity ].
  assert (Hcomp : Generate.bad_words_comprehension lib padded
                  = Generate.bad_words_comprehension lib phrases).
  { induction Hpad as [ | p q padded' phrases' (l & r & Hl & Hr & ->) _ IH];
      [ reflexivity | ].
    cbn [Generate.bad_words_comprehension].
    rewrite (strip_padded l q r Hl Hr), IH. reflexivity. }
  unfold Generate.generate_text.
  destruct (Generate.__assert_default_text_is_val text) as [e | s];
    [ reflexivity | ].
  destruct (Generate.lift (Generate.encode lib s)) as [e | prompt_ids];
    [ reflexivity | ].
  cbn [Generate.set_bad_words Generate.bad_words Generate.min_length
       Generate.max_length Generate.do_sample Generate.early_stopping
       Generate.num_beams Generate.temperature Generate.top_k
       Generate.no_repeat_ngram_size Generate.top_p].
  inversion Hpad as [ | p q padded' phrases' Hpq Hrest]; subst; [ reflexivity | ].
  rewrite Hcomp. reflexivity.
Qed.

Lemma generate_text_bad_words_padding_witness :
  Generate.generate_text Generate.demo_lib (Generate.TStr "hello")
    (Generate.set_bad_words Generate.default_settings (Some ["  darn "; "heck"]))
  = Generate.generate_text Generate.demo_lib (Generate.TStr "hello")
      (Generate.set_bad_words Generate.default_settings (Some ["darn"; "heck"])).
Proof.
  apply (generate_text_bad_words_padding Generate.demo_lib (Generate.TStr "hello")
           Generate.default_settings ["  darn "; "heck"] ["darn"; "heck"]).
  constructor.
  - exists "  ", " ". repeat split.
  - constructor; [ | constructor ].
    exists "", "". repeat split.
Defined.

(** X19: [__post_process_generated_text] removes the echoed prompt: of
    the prompt followed by a continuation it returns the continuation; of
    a result no longer than the prompt it returns the empty string. *)
Theorem post_process_strips_prompt (text continuation result : string) :
  Generate.__post_process_generated_text (text ++ continuation) text = continuation
  /\ ((String.length result <= String.length text)%nat ->
      Generate.__post_process_generated_text result text = "").
Proof.
  unfold Generate.__post_process_generated_text, PyStr.slice_from, PyStr.slice,
    PyStr.len.
  split.
  - rewrite Nat2Z.id, length_append.
    replace (Z.to_nat (Z.of_nat (String.length text + String.length continuation)
                       - Z.of_nat (String.length text)))
      with (String.length continuation) by lia.
    rewrite substring_skip_append. apply substring_0_length.
  - intros Hlen. rewrite Nat2Z.id.
    replace (Z.to_nat (Z.of_nat (String.length result)
                       - Z.of_nat (String.length text)))
      with 0%nat by lia.
    clear Hlen. generalize (String.length text). intros n. revert n.
    induction result as [ | c result IH]; intros [ | n]; cbn; try reflexivity.
    apply IH.
Qed.

Lemma post_process_strips_prompt_witness :
  Generate.__post_process_generated_text "Hi" "Hi there" = "".
Proof.
  apply (post_process_strips_prompt "Hi there" "" "Hi"). cbn. lia.
Defined.

(** ** The translation example *)





(** ** The partitions of raw data *)

(** A run is the pair of its final world and its outcome. *)
Lemma run_pair {A : Type} (c : M A) (w : World) (r : Exn + A) :
  snd (c w) = r -> c w = (fst (c w), r).
Proof. intros <-. apply surjective_pairing. Qed.

(** The call site of [_tok_function] for any instance: the call is
    logged, then the instance's own method runs on the three arguments. *)
Lemma tok_call_run {B : Type}
    (self : Self) (dataset : RawDataset) (a : PyVal) (format : string)
    (k : TokDataset -> M B) (w : World) :
  bind (tok_call self dataset a format) k w =
  match
    snd (call_method (_tok_function self) [VRaw dataset; a; VStr format]
           (after w [CallTokFunction format]))
  with
  | inl e =>
      (fst (call_method (_tok_function self) [VRaw dataset; a; VStr format]
              (after w [CallTokFunction format])),
       inl e)
  | inr tok =>
      k tok
        (fst (call_method (_tok_function self) [VRaw dataset; a; VStr format]
                (after w [CallTokFunction format])))
  end.
Proof.
  unfold tok_call. mrun. rewrite bind_run.
  destruct (call_method (_tok_function self) [VRaw dataset; a; VStr format]
              (after w [CallTokFunction format])) as [w1 [e | tok]];
    reflexivity.
Qed.

(** X21: on a single raw file, for any instance, whatever its class
    defines as [_tok_function]: the partitions that come back are what
    the instance's [_tok_function] returned on the "train" and on the
    "test" part of one split, the train part first. The split is of the
    rows loaded from the input file under the resolved format, shuffled
    with seed 42, split with test size [eval_ratio], no seed, and the
    generator state the run started with. Each call passes three
    arguments: the part, the training arguments and the resolved format.
    The eval partition is the tokenized "test" part, and the run ends
    where the second call ended, but for the cache write when saving was
    requested. *)
Theorem single_file_partitions
    (lib : Library) (self : Self) (input_filepath : string)
    (args : TrainArgs) (w w' : World) (train_tok eval_tok : TokDataset) :
  load_preprocessed_data args = false ->
  _preprocess_data_train lib self input_filepath "" args w
    = (w', inr (train_tok, eval_tok)) ->
  exists file_type raw parts train_raw test_raw w_train w_eval,
    snd (_check_file_type self input_filepath w) = inr file_type
    /\ load_dataset_split lib file_type [("train", input_filepath)] "train"
       = inr raw
    /\ train_test_split lib (shuffle lib raw 42) (eval_ratio args) None
         (np_random w) = inr parts
    /\ lookup parts "train" = Some train_raw
    /\ lookup parts "test" = Some test_raw
    /\ call_method (_tok_function self)
         [VRaw train_raw; VTrainArgs args; VStr file_type]
         (after w [LoadDataset file_type [("train", input_filepath)] (Some "train");
                   Shuffle 42; TrainTestSplit (eval_ratio args) None;
                   LogInfo "Tokenizing training data...";
                   CallTokFunction file_type])
       = (w_train, inr train_tok)
    /\ call_method (_tok_function self)
         [VRaw test_raw; VTrainArgs args; VStr file_type]
         (after w_train [CallTokFunction file_type])
       = (w_eval, inr eval_tok)
    /\ w' = after w_eval
              (if save_preprocessed_data args
               then [SaveToDisk (save_preprocessed_data_path args) ["train"; "eval"]]
               else []).
Proof.
  intros Hload. unfold _preprocess_data_train. rewrite Hload.
  cbn [negb String.eqb].
  explore_all ltac:(rewrite tok_call_run);
    intros H; try discriminate H.
  all: injection H as <- <- <-.
  all: do 7 eexists.
  all: repeat match goal with |- _ /\ _ => split end;
    try eassumption; try (apply run_pair; eassumption);
    try (rewrite after_nil; reflexivity); try reflexivity.
Qed.

Lemma single_file_partitions_witness :
  exists parts w_train,
    train_test_split (Demo.lib Demo.cpu_only)
      (shuffle (Demo.lib Demo.cpu_only) ["a"; "bb"] 42) (1 # 2) None 1
    = inr parts
    /\ lookup parts "test" = Some ["bb"]
    /\ call_method (Conforming._tok_function (Demo.lib Demo.cpu_only))
         [VRaw ["bb"]; VTrainArgs Demo.args; VStr "text"]
         (after w_train [CallTokFunction "text"])
       = (after w_train
            [CallTokFunction "text";
             PreprocessConcatenate (preprocessing_processes Demo.args) false],
          inr [[2]]).
Proof.
  destruct (single_file_partitions (Demo.lib Demo.cpu_only)
              (Conforming.instance (Demo.lib Demo.cpu_only) cpu (FTStr "text"))
              "train.txt" Demo.args Demo.world1 _ [[1]] [[2]]
              eq_refl eq_refl)
    as (ft & raw & parts & train_raw & test_raw & w_train & w_eval
        & Hft & Hraw & Hsplit & _ & Htest & _ & Heval & _).
  vm_compute in Hft. injection Hft as <-.
  vm_compute in Hraw. injection Hraw as <-.
  exists parts, w_train. split; [ exact Hsplit | ].
  vm_compute in Hsplit. injection Hsplit as <-.
  vm_compute in Htest. injection Htest as <-.
  split; [ reflexivity | ].
  change (after w_train
            [CallTokFunction "text";
             PreprocessConcatenate (preprocessing_processes Demo.args) false])
    with (after w_train
            ([CallTokFunction "text"]
             ++ [PreprocessConcatenate (preprocessing_processes Demo.args) false])).
  rewrite <- after_after. reflexivity.
Defined.

(** X22: on two raw files, for any instance, whatever its class defines
    as [_tok_function]: the partitions that come back are what the
    instance's [_tok_function] returned on the "train" and on the "eval"
    part of one [load_dataset] call on both files, made under the format
    the train path resolved to; the eval path's own extension plays no
    part. Each call passes three arguments: the part, the training
    arguments and the train path's format; the train part is tokenized
    first, and the run ends where the second call ended, but for the
    cache write when saving was requested. *)
Theorem two_file_partitions
    (lib : Library) (self : Self) (input_filepath eval_filepath : string)
    (args : TrainArgs) (w w' : World) (train_tok eval_tok : TokDataset) :
  load_preprocessed_data args = false ->
  eval_filepath <> "" ->
  _preprocess_data_train lib self input_filepath eval_filepath args w
    = (w', inr (train_tok, eval_tok)) ->
  exists file_type raw_data train_raw eval_raw w_train w_eval,
    snd (_check_file_type self input_filepath w) = inr file_type
    /\ load_dataset lib file_type
         [("train", input_filepath); ("eval", eval_filepath)] = inr raw_data
    /\ lookup raw_data "train" = Some train_raw
    /\ lookup raw_data "eval" = Some eval_raw
    /\ call_method (_tok_function self)
         [VRaw train_raw; VTrainArgs args; VStr file_type]
         (after w [LoadDataset file_type
                     [("train", input_filepath); ("eval", eval_filepath)] None;
                   LogInfo "Tokenizing training data...";
                   CallTokFunction file_type])
       = (w_train, inr train_tok)
    /\ call_method (_tok_function self)
         [VRaw eval_raw; VTrainArgs args; VStr file_type]
         (after w_train [LogInfo "Tokenizing eval data...";
                         CallTokFunction file_type])
       = (w_eval, inr eval_tok)
    /\ w' = after w_eval
              (if save_preprocessed_data args
               then [SaveToDisk (save_preprocessed_data_path args) ["train"; "eval"]]
               else []).
Proof.
  intros Hload He. unfold _preprocess_data_train. rewrite Hload.
  apply String.eqb_neq in He. rewrite He. cbn [negb].
  mrun. rewrite bind_check_file_type_run.
  destruct (snd (_check_file_type self input_filepath w)) as [e | ft] eqn:Hft.
  { rewrite check_file_type_run in Hft. cbn [snd] in Hft.
    intros H. discriminate H. }
  cbn beta. mrun. rewrite bind_check_file_type_run, Hft.
  rewrite String.eqb_refl. cbn [negb].
  explore_all ltac:(rewrite tok_call_run);
    intros H; try discriminate H.
  all: injection H as <- <- <-.
  all: exists ft; do 5 eexists.
  all: repeat match goal with |- _ /\ _ => split end;
    try eassumption; try (apply run_pair; eassumption);
    try (rewrite after_nil; reflexivity); try reflexivity.
Qed.

Lemma two_file_partitions_witness :
  exists raw_data w_train,
    load_dataset (Demo.lib Demo.cpu_only) "text"
      [("train", "train.txt"); ("eval", "eval.csv")] = inr raw_data
    /\ lookup raw_data "eval" = Some ["x,y"]
    /\ call_method (Conforming._tok_function (Demo.lib Demo.cpu_only))
         [VRaw ["x,y"]; VTrainArgs Demo.args; VStr "text"]
         (after w_train [LogInfo "Tokenizing eval data..."; CallTokFunction "text"])
       = (after w_train
            [LogInfo "Tokenizing eval data..."; CallTokFunction "text";
             PreprocessConcatenate (preprocessing_processes Demo.args) false],
          inr [[3]]).
Proof.
  destruct (two_file_partitions (Demo.lib Demo.cpu_only)
              (Conforming.instance (Demo.lib Demo.cpu_only) cpu (FTStr "text"))
              "train.txt" "eval.csv" Demo.args Demo.world0 _ [[1]; [2]] [[3]]
              eq_refl ltac:(discriminate) eq_refl)
    as (ft & raw_data & train_raw & eval_raw & w_train & w_eval
        & Hft & Hraw & _ & Heval & _ & Htok & _).
  vm_compute in Hft. injection Hft as <-.
  exists raw_data, w_train. split; [ exact Hraw | ].
  vm_compute in Hraw. injection Hraw as <-.
  vm_compute in Heval. injection Heval as <-.
  split; [ reflexivity | ].
  change (after w_train
            [LogInfo "Tokenizing eval data..."; CallTokFunction "text";
             PreprocessConcatenate (preprocessing_processes Demo.args) false])
    with (after w_train
            ([LogInfo "Tokenizing eval data..."; CallTokFunction "text"]
             ++ [PreprocessConcatenate (preprocessing_processes Demo.args) false])).
  rewrite <- after_after. reflexivity.
Defined.
